(** * dockerps: a terminal dashboard over [docker ps]

    Shallow embedding of [main.go] (the revision that carries the status
    line and the start / stop / delete actions) and the properties of its
    pure core: truncation, status words, port cells, filtering, the record
    parser, the column layout and the [Update] transition function.

    Conventions.
    - A Go [string] is a byte sequence: [string] of the Standard Library,
      one [ascii] per byte.  [len] is the byte count.
    - A Go [int] is a 64-bit signed integer: a [Z] together with [wrap]
      wherever the source does arithmetic.
    - A run-time panic (slice or index out of range) is the [Panic] outcome
      of the [exec] monad.
    - Packages the program imports but does not define ([strings.ToLower],
      [encoding/json], lipgloss and the two bubbles widgets) are interfaces:
      type classes whose laws record the only facts the proofs rely on. *)

From Stdlib Require Import ZArith String Ascii List Bool Lia Permutation.
From Stdlib Require Import DecimalString.
From stdpp Require Import base option list.
Import ListNotations.

Local Open Scope string_scope.
Local Open Scope Z_scope.

(** ** Outcomes of Go code that may panic *)

Inductive panic : Type :=
| SliceBounds   (* slice bounds out of range *)
| IndexRange.   (* index out of range *)

Inductive exec (A : Type) : Type :=
| Done (a : A)
| Panic (p : panic).
Arguments Done {A} a.
Arguments Panic {A} p.

Definition exec_bind {A B} (x : exec A) (k : A -> exec B) : exec B :=
  match x with
  | Done a => k a
  | Panic p => Panic p
  end.

#[export] Instance exec_ret : MRet exec := fun A a => Done a.
#[export] Instance exec_mbind : MBind exec := fun A B k x => exec_bind x k.

(** ** Go integers *)

Module GoInt.

Definition int_min : Z := - 2 ^ 63.
Definition int_max : Z := 2 ^ 63 - 1.

Definition in_range (z : Z) : Prop := int_min <= z <= int_max.

(** Two's-complement wrap-around of a 64-bit result. *)
Definition wrap (z : Z) : Z := (z + 2 ^ 63) mod 2 ^ 64 - 2 ^ 63.

Definition sub (a b : Z) : Z := wrap (a - b).
Definition add (a b : Z) : Z := wrap (a + b).
(** Go's [/] truncates toward zero. *)
Definition div (a b : Z) : Z := wrap (Z.quot a b).

(** [func max(a, b int) int] of main.go. *)
Definition max (a b : Z) : Z := if a >? b then a else b.

End GoInt.

(** ** Byte strings and the [strings] functions the program calls *)

Module Str.

Definition len (s : string) : Z := Z.of_nat (String.length s).

Fixpoint take (n : nat) (s : string) : string :=
  match n, s with
  | S n', String c s' => String c (take n' s')
  | _, _ => EmptyString
  end.

Fixpoint drop (n : nat) (s : string) : string :=
  match n, s with
  | S n', String _ s' => drop n' s'
  | _, _ => s
  end.

(** [s[:k]]: panics unless [0 <= k <= len(s)]. *)
Definition slice_to (s : string) (k : Z) : exec string :=
  if (0 <=? k) && (k <=? len s) then Done (take (Z.to_nat k) s)
  else Panic SliceBounds.

(** [strings.HasPrefix]. *)
Fixpoint HasPrefix (s prefix : string) {struct prefix} : bool :=
  match prefix, s with
  | EmptyString, _ => true
  | String p prefix', String c s' => Ascii.eqb c p && HasPrefix s' prefix'
  | String _ _, EmptyString => false
  end.

(** [strings.HasSuffix]. *)
Definition HasSuffix (s suffix : string) : bool :=
  (String.length suffix <=? String.length s)%nat &&
  String.eqb (drop (String.length s - String.length suffix) s) suffix.

(** [strings.TrimPrefix]. *)
Definition TrimPrefix (s prefix : string) : string :=
  if HasPrefix s prefix then drop (String.length prefix) s else s.

(** [strings.Contains]: some suffix of [s] starts with [substr]. *)
Fixpoint Contains (s substr : string) : bool :=
  HasPrefix s substr ||
  match s with
  | EmptyString => false
  | String _ s' => Contains s' substr
  end.

(** [strings.ReplaceAll] for a non-empty [old] (the program's only call
    passes ["0.0.0.0:"]): one left-to-right pass over non-overlapping
    occurrences.  [skip] counts the bytes of a matched occurrence that are
    still to be consumed. *)
Fixpoint replace_from (skip : nat) (s old new : string) : string :=
  match s with
  | EmptyString => EmptyString
  | String c s' =>
      match skip with
      | S k => replace_from k s' old new
      | O =>
          if HasPrefix s old
          then new ++ replace_from (String.length old - 1) s' old new
          else String c (replace_from 0 s' old new)
      end
  end.

Definition ReplaceAll (s old new : string) : string := replace_from 0 s old new.

(** [strings.Split] with a one-byte separator (the program splits on the
    newline): the pieces between separators, empty pieces included, so the
    result always has one more element than [s] has separators. *)
Fixpoint Split (s : string) (sep : ascii) : list string :=
  match s with
  | EmptyString => [EmptyString]
  | String c s' =>
      if Ascii.eqb c sep then EmptyString :: Split s' sep
      else match Split s' sep with
           | piece :: rest => String c piece :: rest
           | [] => [String c EmptyString]
           end
  end.

Definition newline : ascii := "010"%char.

Fixpoint bytes (l : list nat) : string :=
  match l with
  | [] => EmptyString
  | b :: l' => String (ascii_of_nat b) (bytes l')
  end.

Fixpoint rev_onto (s acc : string) : string :=
  match s with
  | EmptyString => acc
  | String c s' => rev_onto s' (String c acc)
  end.

Definition rev (s : string) : string := rev_onto s EmptyString.

(** The UTF-8 encodings of the runes for which [unicode.IsSpace] holds:
    tab, LF, VT, FF, CR, space, U+0085, U+00A0, U+1680, U+2000..U+200A,
    U+2028, U+2029, U+202F, U+205F, U+3000. *)
Definition space_runes : list string :=
  List.map bytes
    [ [9]; [10]; [11]; [12]; [13]; [32]; [194; 133]; [194; 160];
      [225; 154; 128];
      [226; 128; 128]; [226; 128; 129]; [226; 128; 130]; [226; 128; 131];
      [226; 128; 132]; [226; 128; 133]; [226; 128; 134]; [226; 128; 135];
      [226; 128; 136]; [226; 128; 137]; [226; 128; 138];
      [226; 128; 168]; [226; 128; 169]; [226; 128; 175];
      [226; 129; 159]; [227; 128; 128] ]%nat.

(** Drop one leading rune of [runes], if [s] starts with one. *)
Fixpoint strip_rune (runes : list string) (s : string) : option string :=
  match runes with
  | [] => None
  | r :: runes' =>
      if HasPrefix s r then Some (drop (String.length r) s)
      else strip_rune runes' s
  end.

Fixpoint trim_left_fuel (fuel : nat) (runes : list string) (s : string) : string :=
  match fuel with
  | O => s
  | S fuel' =>
      match strip_rune runes s with
      | Some s' => trim_left_fuel fuel' runes s'
      | None => s
      end
  end.

(** [strings.TrimLeftFunc(s, unicode.IsSpace)]; every stripped rune is at
    least one byte long, so [len s] rounds suffice. *)
Definition TrimLeft (s : string) : string :=
  trim_left_fuel (String.length s) space_runes s.

(** [strings.TrimRightFunc(s, unicode.IsSpace)]: the same scan on the
    reversed string with reversed encodings. *)
Definition TrimRight (s : string) : string :=
  rev (trim_left_fuel (String.length s) (List.map rev space_runes) (rev s)).

(** [strings.TrimSpace]. *)
Definition TrimSpace (s : string) : string := TrimRight (TrimLeft s).

(** [strings.Join] with a one-byte separator. *)
Fixpoint Join (pieces : list string) (sep : ascii) : string :=
  match pieces with
  | [] => EmptyString
  | [piece] => piece
  | piece :: rest => piece ++ String sep (Join rest sep)
  end.

(** [strings.IndexByte(s, c) >= 0]. *)
Fixpoint hasByte (c : ascii) (s : string) : bool :=
  match s with
  | EmptyString => false
  | String a s' => Ascii.eqb a c || hasByte c s'
  end.

Fixpoint concat (pieces : list string) : string :=
  match pieces with
  | [] => EmptyString
  | piece :: rest => piece ++ concat rest
  end.

(** A run of white space: a concatenation of encoded space runes. *)
Definition Spaces (s : string) : Prop :=
  exists runes, Forall (fun r => In r space_runes) runes /\ s = concat runes.

(** [s] begins, respectively ends, with a space rune. *)
Definition leadingSpace (s : string) : bool :=
  match strip_rune space_runes s with Some _ => true | None => false end.

Definition trailingSpace (s : string) : bool :=
  match strip_rune (List.map rev space_runes) (rev s) with
  | Some _ => true
  | None => false
  end.

End Str.

(** ** [truncate] *)

(** [func truncate(s string, max int) string]. *)
Definition truncate (s : string) (max : Z) : exec string :=
  if Str.len s <=? max then Done s
  else
    head ← Str.slice_to s (GoInt.sub max 3);
    Done (head ++ "...").


(** A total description of what [truncate] returns when it returns. *)
Definition cut (s : string) (n : Z) : string :=
  if Str.len s <=? n then s else Str.take (Z.to_nat (n - 3)) s ++ "...".

(** ** Imported packages as interfaces *)

(** [strings.ToLower] and [strings.ToUpper] (Unicode case mapping). *)
Class Strings := {
  ToLower : string -> string;
  ToUpper : string -> string
}.

(** lipgloss: a style is what the program configures; [Render] is the
    terminal-dependent rendering of a text in a style. *)
Record Style := { Foreground : string; Bold : bool }.

Class Lipgloss := Render : Style -> string -> string.

Definition runningStyle : Style := {| Foreground := "82"; Bold := false |}.
Definition stoppedStyle : Style := {| Foreground := "196"; Bold := false |}.
Definition pausedStyle : Style := {| Foreground := "226"; Bold := false |}.

(** [type Container struct]. *)
Record Container := {
  ID : string;
  Image : string;
  Command : string;
  Created : string;
  Status : string;
  Ports : string;
  Names : string;
  State : string
}.

(** [json.Unmarshal([]byte(line), &container)] into a zero [Container]:
    the decoded record, or [None] when it reports an error. *)
Class Json := Unmarshal : string -> option Container.

Definition error := string.

(** Commands handed back to the Bubble Tea runtime. *)
#[warnings="-register-all"] Inductive Cmd : Type :=
| CmdNil                                   (* nil *)
| Quit                                     (* tea.Quit *)
| LoadContainers                           (* loadContainers *)
| StartContainer (containerID : string)    (* startContainer(id) *)
| StopContainer (containerID : string)     (* stopContainer(id) *)
| DeleteContainer (containerID : string)   (* deleteContainer(id) *)
| Tick (seconds : Z) (then_ : Cmd)         (* tea.Tick(d, func ... ) *)
| Batch (cmds : list Cmd)                  (* tea.Batch(...) *)
| WidgetCmd (tag : string).                (* a widget's own command *)

(** [table.Column] and [table.Row]. *)
Record Column := { Title : string; Width : Z }.
Definition Row := list string.

(** The bubbles table widget, as far as the program uses it. *)
Class TableWidget (T : Type) := {
  table_New : list Column -> Z -> T;       (* WithColumns, WithHeight *)
  Columns : T -> list Column;
  Rows : T -> list Row;
  Cursor : T -> Z;
  SetColumns : list Column -> T -> T;
  SetRows : list Row -> T -> T;
  SetHeight : Z -> T -> T;
  table_Update : string -> T -> T * Cmd;   (* Update on a key message *)
  Columns_New : forall cols h, Columns (table_New cols h) = cols;
  Cursor_New : forall cols h, Cursor (table_New cols h) = 0;
  Columns_SetColumns : forall cols t, Columns (SetColumns cols t) = cols;
  Columns_SetRows : forall rows t, Columns (SetRows rows t) = Columns t;
  Columns_SetHeight : forall h t, Columns (SetHeight h t) = Columns t;
  Columns_Update : forall k t, Columns (fst (table_Update k t)) = Columns t;
  Rows_SetRows : forall rows t, Rows (SetRows rows t) = rows;
  Cursor_SetRows : forall rows (t : T),
    0 <= Cursor t < Z.of_nat (length rows) ->
    Cursor (SetRows rows t) = Cursor t
}.

(** The bubbles text input widget, as far as the program uses it. *)
Class TextInput (I : Type) := {
  input_New : I;                           (* textinput.New() *)
  Value : I -> string;
  Focus : I -> I * Cmd;
  Blur : I -> I;
  input_Update : string -> I -> I * Cmd;   (* Update on a key message *)
  Value_New : Value input_New = EmptyString
}.

(** Messages delivered to [Update].  A key message is represented by its
    [String()] rendering, the only thing main.go looks at. *)
Inductive Msg : Type :=
| WindowSizeMsg (Width Height : Z)
| KeyMsg (key : string)
| containersLoaded (containers : list Container)
| actionResult (success : bool) (message : string)
| errMsg (err : error)
| OtherMsg.

(** Result of running an external command: captured output or an error. *)
Inductive cmd_result : Type :=
| Output (stdout : string)
| Failed (err : error).

(** ** The program *)

Section Program.
Context {T I : Type} `{!TableWidget T} `{!TextInput I}.
Context `{!Strings} `{!Lipgloss} `{!Json}.

(** [type model struct]. *)
Record model := {
  table : T;
  containers : list Container;
  filter : I;
  filtering : bool;
  err : option error;
  width : Z;
  height : Z;
  statusMsg : string;
  loading : bool
}.

Definition set_table (t : T) (m : model) : model :=
  {| table := t; containers := containers m; filter := filter m;
     filtering := filtering m; err := err m; width := width m;
     height := height m; statusMsg := statusMsg m; loading := loading m |}.
Definition set_containers (cs : list Container) (m : model) : model :=
  {| table := table m; containers := cs; filter := filter m;
     filtering := filtering m; err := err m; width := width m;
     height := height m; statusMsg := statusMsg m; loading := loading m |}.
Definition set_filter (f : I) (m : model) : model :=
  {| table := table m; containers := containers m; filter := f;
     filtering := filtering m; err := err m; width := width m;
     height := height m; statusMsg := statusMsg m; loading := loading m |}.
Definition set_filtering (b : bool) (m : model) : model :=
  {| table := table m; containers := containers m; filter := filter m;
     filtering := b; err := err m; width := width m;
     height := height m; statusMsg := statusMsg m; loading := loading m |}.
Definition set_err (e : option error) (m : model) : model :=
  {| table := table m; containers := containers m; filter := filter m;
     filtering := filtering m; err := e; width := width m;
     height := height m; statusMsg := statusMsg m; loading := loading m |}.
Definition set_width (w : Z) (m : model) : model :=
  {| table := table m; containers := containers m; filter := filter m;
     filtering := filtering m; err := err m; width := w;
     height := height m; statusMsg := statusMsg m; loading := loading m |}.
Definition set_height (h : Z) (m : model) : model :=
  {| table := table m; containers := containers m; filter := filter m;
     filtering := filtering m; err := err m; width := width m;
     height := h; statusMsg := statusMsg m; loading := loading m |}.
Definition set_statusMsg (s : string) (m : model) : model :=
  {| table := table m; containers := containers m; filter := filter m;
     filtering := filtering m; err := err m; width := width m;
     height := height m; statusMsg := s; loading := loading m |}.
Definition set_loading (b : bool) (m : model) : model :=
  {| table := table m; containers := containers m; filter := filter m;
     filtering := filtering m; err := err m; width := width m;
     height := height m; statusMsg := statusMsg m; loading := b |}.

(** The loop of [loadContainers] over the lines of the listing. *)
Fixpoint decodeLines (lines : list string) (containers : list Container)
  : list Container :=
  match lines with
  | [] => containers
  | line :: lines' =>
      if String.eqb line "" then decodeLines lines' containers
      else match Unmarshal line with
           | None => decodeLines lines' containers
           | Some container => decodeLines lines' (containers ++ [container])%list
           end
  end.

(** [func loadContainers() tea.Msg], given what [docker ps -a --format json]
    produced. *)
Definition loadContainers (run : cmd_result) : Msg :=
  match run with
  | Failed e => errMsg e
  | Output output =>
      let lines := Str.Split (Str.TrimSpace output) Str.newline in
      containersLoaded (decodeLines lines [])
  end.

(** [startContainer(containerID)], given the outcome of [docker start]. *)
Definition startContainer (containerID : string) (run : option error) : exec Msg :=
  match run with
  | Some e => Done (actionResult false ("Failed to start container: " ++ e))
  | None =>
      id12 ← Str.slice_to containerID 12;
      Done (actionResult true ("Container " ++ id12 ++ " started successfully"))
  end.

(** [stopContainer(containerID)], given the outcome of [docker stop]. *)
Definition stopContainer (containerID : string) (run : option error) : exec Msg :=
  match run with
  | Some e => Done (actionResult false ("Failed to stop container: " ++ e))
  | None =>
      id12 ← Str.slice_to containerID 12;
      Done (actionResult true ("Container " ++ id12 ++ " stopped successfully"))
  end.

(** [deleteContainer(containerID)]: the outcome of the preliminary
    [docker stop] is ignored, that of [docker rm] decides. *)
Definition deleteContainer (containerID : string) (stop rm : option error)
  : exec Msg :=
  match rm with
  | Some e => Done (actionResult false ("Failed to delete container: " ++ e))
  | None =>
      id12 ← Str.slice_to containerID 12;
      Done (actionResult true ("Container " ++ id12 ++ " deleted successfully"))
  end.

(** [func formatStatus(state string) string]. *)
Definition formatStatus (state : string) : string :=
  if String.eqb state "running" then Render runningStyle "RUNNING"
  else if String.eqb state "exited" then Render stoppedStyle "STOPPED"
  else if String.eqb state "paused" then Render pausedStyle "PAUSED"
  else if String.eqb state "restarting" then Render pausedStyle "RESTART"
  else if String.eqb state "removing" then Render stoppedStyle "REMOVING"
  else if String.eqb state "dead" then Render stoppedStyle "DEAD"
  else if String.eqb state "created" then Render pausedStyle "CREATED"
  else ToUpper state.

(** The placeholder of an empty cell: an em dash, U+2014, three bytes. *)
Definition dash : string := Str.bytes [226; 128; 148]%nat.

(** [func formatPorts(ports string) string]. *)
Definition formatPorts (ports : string) : exec string :=
  if String.eqb ports "" then Done dash
  else truncate (Str.ReplaceAll ports "0.0.0.0:" "") 25.

(** [cols[i].Width]. *)
Definition col_width (cols : list Column) (i : nat) : exec Z :=
  match cols !! i with
  | Some c => Done (Width c)
  | None => Panic IndexRange
  end.

(** [func (m model) containerToRow(c Container) table.Row]; only the table
    of the receiver is read. *)
Definition containerToRow (t : T) (c : Container) : exec Row :=
  let name := Str.TrimPrefix (Names c) "/" in
  let cols := Columns t in
  if Z.of_nat (length cols) <? 5 then
    c0 ← truncate (ID c) 14;
    c1 ← truncate name 25;
    c2 ← truncate (Image c) 30;
    let c3 := formatStatus (State c) in
    p ← formatPorts (Ports c);
    c4 ← truncate p 25;
    Done [c0; c1; c2; c3; c4]
  else
    w0 ← col_width cols 0;
    c0 ← truncate (ID c) w0;
    w1 ← col_width cols 1;
    c1 ← truncate name w1;
    w2 ← col_width cols 2;
    c2 ← truncate (Image c) w2;
    let c3 := formatStatus (State c) in
    p ← formatPorts (Ports c);
    w4 ← col_width cols 4;
    c4 ← truncate p w4;
    Done [c0; c1; c2; c3; c4].

(** The test of the loop of [filterContainers]; [filter] is already
    lower-cased. *)
Definition keeps (filter : string) (container : Container) : bool :=
  let name := ToLower (Str.TrimPrefix (Names container) "/") in
  let ports := ToLower (Ports container) in
  Str.Contains name filter ||
  Str.Contains (ToLower (Image container)) filter ||
  Str.Contains (ToLower (State container)) filter ||
  Str.Contains (ToLower (ID container)) filter ||
  Str.Contains ports filter.

(** [func filterContainers(containers []Container, filter string)]. *)
Definition filterContainers (containers : list Container) (filter : string)
  : list Container :=
  if String.eqb filter "" then containers
  else
    let filter := ToLower filter in
    fold_left
      (fun filtered container =>
         if keeps filter container then (filtered ++ [container])%list else filtered)
      containers [].

(** [func (m model) getSelectedContainer() *Container]; [None] is the nil
    pointer.  Indexing with a negative cursor panics. *)
Definition getSelectedContainer (m : model) : exec (option Container) :=
  if Z.of_nat (length (containers m)) =? 0 then Done None
  else
    let filtered := filterContainers (containers m) (Value (filter m)) in
    if Z.of_nat (length filtered) =? 0 then Done None
    else
      let cursor := Cursor (table m) in
      if cursor >=? Z.of_nat (length filtered) then Done None
      else if cursor <? 0 then Panic IndexRange
      else match filtered !! Z.to_nat cursor with
           | Some c => Done (Some c)
           | None => Panic IndexRange
           end.

(** The loop of [updateTable]. *)
Fixpoint projectRows (t : T) (filtered : list Container) (rows : list Row)
  : exec (list Row) :=
  match filtered with
  | [] => Done rows
  | container :: rest =>
      row ← containerToRow t container;
      projectRows t rest (rows ++ [row])%list
  end.

(** [func (m model) updateTable() model]. *)
Definition updateTable (m : model) : exec model :=
  let filtered := filterContainers (containers m) (Value (filter m)) in
  rows ← projectRows (table m) filtered [];
  Done (set_table (SetRows rows (table m)) m).

(** The columns [updateTableSize] installs for a (clamped) width. *)
Definition tableColumns (width : Z) : list Column :=
  let idWidth := 14 in
  let statusWidth := 16 in
  let fixedWidth := GoInt.add (GoInt.add idWidth statusWidth) 10 in
  let remainingWidth := GoInt.sub width fixedWidth in
  let nameWidth := GoInt.max 20 (GoInt.div remainingWidth 3) in
  let imageWidth := GoInt.max 25 (GoInt.div remainingWidth 3) in
  let portsWidth :=
    GoInt.max 20 (GoInt.sub (GoInt.sub remainingWidth nameWidth) imageWidth) in
  [ {| Title := "ID"; Width := idWidth |};
    {| Title := "NAME"; Width := nameWidth |};
    {| Title := "IMAGE"; Width := imageWidth |};
    {| Title := "STATUS"; Width := statusWidth |};
    {| Title := "PORTS"; Width := portsWidth |} ].

(** [func (m model) updateTableSize() model]. *)
Definition updateTableSize (m : model) : exec model :=
  let m := if width m <? 80 then set_width 80 m else m in
  let columns := tableColumns (width m) in
  let m := set_table (SetColumns columns (table m)) m in
  let tableHeight := GoInt.max 10 (GoInt.sub (height m) 10) in
  let m := set_table (SetHeight tableHeight (table m)) m in
  updateTable m.

(** [fmt.Sprintf] with one [%s]. *)
Definition sprintf1 (before arg after : string) : string :=
  before ++ arg ++ after.

(** The delayed refresh that follows an action. *)
Definition refreshLater : Cmd := Tick 2 LoadContainers.

(** [func (m model) Update(msg tea.Msg) (tea.Model, tea.Cmd)]. *)
Definition Update (m : model) (msg : Msg) : exec (model * Cmd) :=
  match msg with
  | WindowSizeMsg w h =>
      let m := set_width w m in
      let m := set_height h m in
      m ← updateTableSize m;
      Done (m, CmdNil)
  | KeyMsg key =>
      if filtering m then
        if String.eqb key "ctrl+c" then Done (m, Quit)
        else if String.eqb key "esc" then
          let m := set_filtering false m in
          let m := set_filter (Blur (filter m)) m in
          Done (m, CmdNil)
        else if String.eqb key "enter" then
          let m := set_filtering false m in
          let m := set_filter (Blur (filter m)) m in
          m ← updateTable m;
          Done (m, CmdNil)
        else
          let '(f, cmd) := input_Update key (filter m) in
          let m := set_filter f m in
          m ← updateTable m;
          Done (m, cmd)
      else
        if String.eqb key "ctrl+c" || String.eqb key "q" then Done (m, Quit)
        else if String.eqb key "/" then
          let m := set_filtering true m in
          (* [return m, m.filter.Focus()]: the call runs before [m] is
             copied into the result, so the returned filter has the focus *)
          let '(f, cmd) := Focus (filter m) in
          Done (set_filter f m, cmd)
        else if String.eqb key "r" then
          let m := set_statusMsg "Refreshing containers..." m in
          let m := set_loading true m in
          Done (m, LoadContainers)
        else if String.eqb key "s" then
          container ← getSelectedContainer m;
          match container with
          | Some container =>
              if String.eqb (State container) "running" then
                Done (set_statusMsg "Container is already running" m, CmdNil)
              else
                id12 ← Str.slice_to (ID container) 12;
                let m := set_statusMsg (sprintf1 "Starting container " id12 "...") m in
                let m := set_loading true m in
                Done (m, Batch [StartContainer (ID container); refreshLater])
          | None => Done (m, CmdNil)
          end
        else if String.eqb key "x" then
          container ← getSelectedContainer m;
          match container with
          | Some container =>
              if negb (String.eqb (State container) "running") then
                Done (set_statusMsg "Container is not running" m, CmdNil)
              else
                id12 ← Str.slice_to (ID container) 12;
                let m := set_statusMsg (sprintf1 "Stopping container " id12 "...") m in
                let m := set_loading true m in
                Done (m, Batch [StopContainer (ID container); refreshLater])
          | None => Done (m, CmdNil)
          end
        else if String.eqb key "d" then
          container ← getSelectedContainer m;
          match container with
          | Some container =>
              id12 ← Str.slice_to (ID container) 12;
              let m := set_statusMsg (sprintf1 "Deleting container " id12 "...") m in
              let m := set_loading true m in
              Done (m, Batch [DeleteContainer (ID container); refreshLater])
          | None => Done (m, CmdNil)
          end
        else
          let '(t, cmd) := table_Update key (table m) in
          Done (set_table t m, cmd)
  | containersLoaded cs =>
      let m := set_containers cs m in
      m ← updateTable m;
      let m := set_loading false m in
      let m :=
        if String.eqb (statusMsg m) "Refreshing containers..."
        then set_statusMsg "" m else m in
      Done (m, CmdNil)
  | actionResult _ message =>
      let m := set_loading false m in
      let m := set_statusMsg message m in
      Done (m, CmdNil)
  | errMsg e =>
      let m := set_err (Some e) m in
      let m := set_loading false m in
      Done (m, Quit)
  | OtherMsg => Done (m, CmdNil)
  end.

(** [func initialModel() model]. *)
Definition initialModel : model :=
  let columns :=
    [ {| Title := "ID"; Width := 14 |};
      {| Title := "NAME"; Width := 25 |};
      {| Title := "IMAGE"; Width := 30 |};
      {| Title := "STATUS"; Width := 16 |};
      {| Title := "PORTS"; Width := 25 |} ] in
  {| table := table_New columns 15;
     containers := [];
     filter := input_New;
     filtering := false;
     err := None;
     width := 100;
     height := 30;
     statusMsg := "";
     loading := false |}.

(** States the program can be in: those [Update] leads to from
    [initialModel]. *)
Inductive Reachable : model -> Prop :=
| Reachable_init : Reachable initialModel
| Reachable_step m msg m' cmd :
    Reachable m -> Update m msg = Done (m', cmd) -> Reachable m'.

(** Every column leaves room for the ellipsis (and is a Go [int]). *)
Definition roomy (cols : list Column) : Prop :=
  Forall (fun c => 3 <= Width c /\ GoInt.in_range (Width c)) cols.

(** The row [containerToRow] builds, when it builds one. *)
Definition portsCell (ports : string) (w : Z) : string :=
  if String.eqb ports "" then dash
  else cut (Str.ReplaceAll ports "0.0.0.0:" "") (Z.min 25 w).

(** Width of column [i], or the fallback of [containerToRow] when the
    table has fewer than five columns. *)
Definition widthAt (cols : list Column) (i : nat) (fallback : Z) : Z :=
  if Z.of_nat (length cols) <? 5 then fallback
  else match cols !! i with Some k => Width k | None => fallback end.

Definition rowOf (cols : list Column) (c : Container) : Row :=
  let name := Str.TrimPrefix (Names c) "/" in
  [ cut (ID c) (widthAt cols 0 14); cut name (widthAt cols 1 25);
    cut (Image c) (widthAt cols 2 30); formatStatus (State c);
    portsCell (Ports c) (widthAt cols 4 25) ].

(** The rows the table shows for a state. *)
Definition projection (cols : list Column) (cs : list Container) (text : string)
  : list Row :=
  List.map (rowOf cols) (filterContainers cs text).

(** The fixed table of [formatStatus]: state, style, label. *)
Definition statusTable : list (string * (Style * string)) :=
  [ ("running", (runningStyle, "RUNNING"));
    ("exited", (stoppedStyle, "STOPPED"));
    ("paused", (pausedStyle, "PAUSED"));
    ("restarting", (pausedStyle, "RESTART"));
    ("removing", (stoppedStyle, "REMOVING"));
    ("dead", (stoppedStyle, "DEAD"));
    ("created", (pausedStyle, "CREATED")) ].

(** *** The specification's reading of filtering and parsing *)

(** [sub] occurs in [s]. *)
Definition substringOf (sub s : string) : Prop :=
  exists pre post, s = pre ++ sub ++ post.

(** At least one of the five fields, lower-cased, contains the lower-cased
    filter text. *)
Definition matchesFilter (text : string) (c : Container) : Prop :=
  Exists (fun field => substringOf (ToLower text) (ToLower field))
         [Str.TrimPrefix (Names c) "/"; Image c; State c; ID c; Ports c].

Definition nonEmpty (line : string) : bool := negb (String.eqb line "").

(** Trim, split on newlines, skip empty lines, keep what decodes. *)
Definition decodedLines (output : string) : list Container :=
  omap Unmarshal
       (List.filter nonEmpty (Str.Split (Str.TrimSpace output) Str.newline)).

End Program.

(** ** Concrete instances of the interfaces

    A byte-wise case mapping (what Go computes on ASCII text), the rendering
    of a terminal without colour support, a stand-in decoder and two small
    widgets.  They make the program executable inside Rocq. *)

Module Demo.

Definition lower_byte (c : ascii) : ascii :=
  let n := nat_of_ascii c in
  if ((65 <=? n) && (n <=? 90))%nat then ascii_of_nat (n + 32) else c.

Definition upper_byte (c : ascii) : ascii :=
  let n := nat_of_ascii c in
  if ((97 <=? n) && (n <=? 122))%nat then ascii_of_nat (n - 32) else c.

Fixpoint map_bytes (f : ascii -> ascii) (s : string) : string :=
  match s with
  | EmptyString => EmptyString
  | String c s' => String (f c) (map_bytes f s')
  end.

Definition strings : Strings :=
  {| ToLower := map_bytes lower_byte; ToUpper := map_bytes upper_byte |}.

Definition lipgloss : Lipgloss := fun _ text => text.

(** Stand-in for the JSON decoder: a line [{id}] decodes to the record
    whose ID is [id] and whose state is "exited"; any other line is
    rejected. *)
Definition json : Json := fun line =>
  if Str.HasPrefix line "{" && Str.HasSuffix line "}" then
    Some {| ID := Str.take (String.length line - 2) (Str.drop 1 line);
            Image := ""; Command := ""; Created := ""; Status := "";
            Ports := ""; Names := ""; State := "exited" |}
  else None.

(** What the one decodable line of [listing] below decodes to. *)
Definition json_record : Container :=
  {| ID := "c0ffee1234567890"; Image := ""; Command := ""; Created := "";
     Status := ""; Ports := ""; Names := ""; State := "exited" |}.

Record Table := {
  t_columns : list Column;
  t_rows : list Row;
  t_cursor : Z;
  t_height : Z
}.

Definition clamp (v lo hi : Z) : Z := Z.max lo (Z.min v hi).

Definition table_key (key : string) (t : Table) : Table * Cmd :=
  let last := Z.of_nat (length (t_rows t)) - 1 in
  let move c := {| t_columns := t_columns t; t_rows := t_rows t;
                   t_cursor := c; t_height := t_height t |} in
  if String.eqb key "down" || String.eqb key "j"
  then (move (clamp (t_cursor t + 1) 0 last), CmdNil)
  else if String.eqb key "up" || String.eqb key "k"
  then (move (clamp (t_cursor t - 1) 0 last), CmdNil)
  else (t, CmdNil).

Definition table_set_rows (rows : list Row) (t : Table) : Table :=
  let last := Z.of_nat (length rows) - 1 in
  {| t_columns := t_columns t; t_rows := rows;
     t_cursor := if t_cursor t >? last then last else t_cursor t;
     t_height := t_height t |}.

Definition table_widget : TableWidget Table.
Proof.
  refine
    {| table_New := fun cols h =>
         {| t_columns := cols; t_rows := []; t_cursor := 0; t_height := h |};
       Columns := t_columns;
       Rows := t_rows;
       Cursor := t_cursor;
       SetColumns := fun cols t =>
         {| t_columns := cols; t_rows := t_rows t;
            t_cursor := t_cursor t; t_height := t_height t |};
       SetRows := table_set_rows;
       SetHeight := fun h t =>
         {| t_columns := t_columns t; t_rows := t_rows t;
            t_cursor := t_cursor t; t_height := h |};
       table_Update := table_key |}.
  - reflexivity.
  - reflexivity.
  - reflexivity.
  - reflexivity.
  - reflexivity.
  - intros k t. unfold table_key.
    destruct (String.eqb k "down" || String.eqb k "j"); [reflexivity |].
    destruct (String.eqb k "up" || String.eqb k "k"); reflexivity.
  - reflexivity.
  - intros rows t Hc. simpl.
    destruct (Z.gtb_spec (t_cursor t) (Z.of_nat (length rows) - 1));
      [lia | reflexivity].
Defined.

Record Input := { i_value : string; i_focus : bool }.

(** Typing a one-byte key appends it; backspace is not needed here. *)
Definition input_key (key : string) (i : Input) : Input * Cmd :=
  if i_focus i && (String.length key =? 1)%nat
  then ({| i_value := i_value i ++ key; i_focus := true |}, CmdNil)
  else (i, CmdNil).

Definition text_input : TextInput Input :=
  {| input_New := {| i_value := ""; i_focus := false |};
     Value := i_value;
     Focus := fun i => ({| i_value := i_value i; i_focus := true |},
                        WidgetCmd "blink");
     Blur := fun i => {| i_value := i_value i; i_focus := false |};
     input_Update := input_key;
     Value_New := eq_refl |}.

Definition Model : Type := @model Table Input.

#[local] Existing Instances strings lipgloss json table_widget text_input.

Definition initial : Model := initialModel.

(** The state after the first listing has arrived. *)
Definition with_records (cs : list Container) : Model :=
  match Update initial (containersLoaded cs) with
  | Done (m, _) => m
  | Panic _ => initial
  end.

Definition web : Container :=
  {| ID := "3f2a9c41d7e0"; Image := "nginx:latest"; Command := "nginx";
     Created := ""; Status := "Up 2 hours"; Ports := "0.0.0.0:80->80/tcp";
     Names := "/web"; State := "running" |}.

(** Records with an ID shorter than the 12 bytes the handlers slice. *)
Definition db : Container :=
  {| ID := "9b1e"; Image := "postgres:16"; Command := "postgres";
     Created := ""; Status := "Exited (0)";
     Ports := "0.0.0.0:8080->80/tcp, 0.0.0.0:8443->443/tcp";
     Names := "/db"; State := "exited" |}.


Definition cache : Container :=
  {| ID := "c0ffee1234567890"; Image := "redis:7"; Command := "redis-server";
     Created := ""; Status := "Exited (1)"; Ports := "";
     Names := "/cache"; State := "exited" |}.

(** A listing with two lines that do not decode and one that does. *)
Definition listing : string :=
  "garbage
{c0ffee1234567890}
}{
".

End Demo.

(** ** The rest of the program: start-up, timestamps, rendering *)

(** [fmt.Sprintf("%d", n)]. *)
Definition itoa (n : Z) : string := NilZero.string_of_int (Z.to_int n).

(** The [time] package, as far as [formatTime] uses it.  [ElapsedSince s]
    is [time.Since(t)], in nanoseconds, for the [t] that [time.Parse] reads
    from [s] with the layout of docker's timestamps, or [None] when the
    parse fails.  The three conversions go through [float64] in Go:
    [int(d.Minutes())], [int(d.Hours())] and [int(d.Hours()/24)]. *)
Class Time := {
  ElapsedSince : string -> option Z;
  MinutesOf : Z -> Z;
  HoursOf : Z -> Z;
  DaysOf : Z -> Z
}.

(** [time.Hour], in nanoseconds. *)
Definition Hour : Z := 3600 * 10 ^ 9.

(** lipgloss styles with padding, and their rendering. *)
Record Padded := { inner : Style; vertical : Z; horizontal : Z }.

Class LipglossPadding := RenderPadded : Padded -> string -> string.

Definition titleStyle : Padded :=
  {| inner := {| Foreground := "86"; Bold := true |};
     vertical := 0; horizontal := 1 |}.
Definition filterStyle : Style := {| Foreground := "205"; Bold := true |}.
Definition helpStyle : Style := {| Foreground := "241"; Bold := false |}.
Definition statusStyle : Style := {| Foreground := "33"; Bold := true |}.
Definition errorStyle : Style := {| Foreground := "196"; Bold := true |}.
Definition successStyle : Style := {| Foreground := "82"; Bold := true |}.

(** What the widgets draw. *)
Class TableView (T : Type) := table_View : T -> string.
Class InputView (I : Type) := input_View : I -> string.

(** Further facts about the widgets: a new table has no rows, navigation
    keeps the rows, and focus changes keep the text of the input. *)
Class TableLaws (T : Type) `{!TableWidget T} := {
  Rows_New : forall cols h, Rows (table_New cols h) = [];
  Rows_Update : forall k (t : T), Rows (fst (table_Update k t)) = Rows t
}.

Class InputLaws (I : Type) `{!TextInput I} := {
  Value_Blur : forall i : I, Value (Blur i) = Value i;
  Value_Focus : forall i : I, Value (fst (Focus i)) = Value i
}.

(** The largest width or height a terminal reports: the fields of
    [struct winsize] are unsigned 16-bit numbers. *)
Definition maxWindow : Z := 65535.

Section Rendering.
Context {T I : Type} `{!TableWidget T} `{!TextInput I}.
Context `{!TableView T} `{!InputView I}.
Context `{!Strings} `{!Lipgloss} `{!LipglossPadding} `{!Time}.

(** [func (m model) Init() tea.Cmd]. *)
Definition Init : Cmd := Batch [LoadContainers; WidgetCmd "blink"].

(** [func formatTime(created string) string]. *)
Definition formatTime (created : string) : exec string :=
  if String.eqb created "" then Done dash
  else
    match ElapsedSince created with
    | None => Str.slice_to created 10
    | Some duration =>
        if duration <? Hour then Done (itoa (MinutesOf duration) ++ "m")
        else if duration <? 24 * Hour then Done (itoa (HoursOf duration) ++ "h")
        else Done (itoa (DaysOf duration) ++ "d")
    end.

(** The status block of [View]: the style follows the words of the
    message. *)
Definition statusBlock (statusMsg : string) : string :=
  if negb (String.eqb statusMsg "") then
    (if Str.Contains statusMsg "successfully"
     then Render successStyle ("✓ " ++ statusMsg)
     else if Str.Contains statusMsg "Failed"
     then Render errorStyle ("✗ " ++ statusMsg)
     else Render statusStyle ("ℹ " ++ statusMsg))
    ++ "

"
  else "".

(** [func (m model) View() string]; the [strings.Builder] is the string
    written so far. *)
Definition View (m : @model T I) : string :=
  match err m with
  | Some e => "Error: " ++ e ++ "
"
  | None =>
      let b := "" in
      let b := b ++ RenderPadded titleStyle "🐳 Docker Container Manager" in
      let b := b ++ " (" ++ itoa (Z.of_nat (length (containers m)))
                 ++ " containers)" in
      let b := if loading m
               then b ++ " " ++ Render statusStyle "⏳ Loading..." else b in
      let b := b ++ "

" in
      let b :=
        if filtering m then
          b ++ Render filterStyle "Filter: " ++ input_View (filter m) ++ "

"
        else if negb (String.eqb (Value (filter m)) "") then
          b ++ Render filterStyle ("Filter: " ++ Value (filter m)) ++ "

"
        else b in
      let b := b ++ statusBlock (statusMsg m) in
      let b := b ++ table_View (table m) in
      let b := b ++ "

" in
      let b :=
        if filtering m then
          b ++ Render helpStyle "Enter: apply filter • Esc: cancel • Ctrl+C: quit"
        else
          b ++ Render helpStyle
                 "↑↓: navigate • s: start • x: stop • d: delete • /: filter • r: refresh • q: quit" in
      b ++ "
"
  end.

(** The name, image and ports columns have their minimum widths, the id and
    status columns their fixed ones. *)
Definition fiveColumns (cols : list Column) : Prop :=
  exists name image ports,
    List.map Width cols = [14; name; image; 16; ports] /\
    20 <= name /\ 25 <= image /\ 20 <= ports.

(** The table shows the projection of the records under the filter text. *)
Definition rowsInSync (m : @model T I) : Prop :=
  Rows (table m)
  = projection (Columns (table m)) (containers m) (Value (filter m)).

End Rendering.

Section Runes.
Import Str.

(** No rune of the list is a proper prefix of another one. *)
Definition unambiguous (runes : list string) : Prop :=
  forall r r', In r runes -> In r' runes ->
               HasPrefix r r' = true \/ HasPrefix r' r = true -> r = r'.

Definition unambiguousb (runes : list string) : bool :=
  forallb (fun r =>
    forallb (fun r' =>
      implb (HasPrefix r r' || HasPrefix r' r) (String.eqb r r')) runes) runes.

(** The first byte of a rune never occurs later in a rune: the encodings
    are self-synchronising. *)
Definition lead_byte_only_leads (runes : list string) : bool :=
  forallb (fun r =>
    forallb (fun r' =>
      match r, r' with
      | String _ tail, String b _ => negb (hasByte b tail)
      | _, _ => true
      end) runes) runes.

End Runes.

Module Demo2.

Definition time : Time :=
  {| ElapsedSince := fun s =>
       if String.eqb s "2024-01-02 03:04:05 +0000 UTC" then Some (90 * 60 * 10 ^ 9)
       else None;
     MinutesOf := fun d => Z.quot d (60 * 10 ^ 9);
     HoursOf := fun d => Z.quot d Hour;
     DaysOf := fun d => Z.quot d (24 * Hour) |}.

Definition padding : LipglossPadding := fun _ text => " " ++ text ++ " ".

Definition table_view : TableView Demo.Table := fun t =>
  Str.Join (List.map (fun row => Str.concat row) (Demo.t_rows t)) Str.newline.

Definition input_view : InputView Demo.Input := fun i => "> " ++ Demo.i_value i.

Definition table_laws : @TableLaws Demo.Table Demo.table_widget.
Proof.
  split.
  - reflexivity.
  - intros k t. cbn. unfold Demo.table_key.
    destruct (String.eqb k "down" || String.eqb k "j"); [reflexivity |].
    destruct (String.eqb k "up" || String.eqb k "k"); reflexivity.
Defined.

Definition input_laws : @InputLaws Demo.Input Demo.text_input.
Proof. split; reflexivity. Defined.

#[local] Existing Instances
  Demo.strings Demo.lipgloss Demo.json Demo.table_widget Demo.text_input.

(** The state [m] after the message [msg], or [m] itself on a panic. *)
Definition after (m : Demo.Model) (msg : Msg) : Demo.Model :=
  match Update m msg with
  | Done (m', _) => m'
  | Panic _ => m
  end.

(** Two records listed, then [/] pressed: the filter is being edited. *)
Definition editing : Demo.Model :=
  after (Demo.with_records [Demo.web; Demo.cache]) (KeyMsg "/").

End Demo2.

(** ** Lemmas on byte strings *)

Section StrLemmas.
Import Str.

Lemma str_length_take (n : nat) (s : string) :
  (n <= String.length s)%nat -> String.length (take n s) = n.
Proof.
  revert s; induction n as [|n IH]; intros [|c s] H; simpl in *; try lia.
  rewrite IH; lia.
Qed.

Lemma str_length_app (s t : string) :
  String.length (s ++ t) = (String.length s + String.length t)%nat.
Proof. induction s as [|c s IH]; simpl; [reflexivity | now rewrite IH]. Qed.

Lemma str_take_drop (n : nat) (s : string) : take n s ++ drop n s = s.
Proof.
  revert s; induction n as [|n IH]; intros [|c s]; simpl; try reflexivity.
  now rewrite IH.
Qed.

Lemma str_drop_app_length (s t : string) : drop (String.length s) (s ++ t) = t.
Proof. induction s as [|c s IH]; simpl; [now destruct t | exact IH]. Qed.

Lemma HasSuffix_app (s t : string) : HasSuffix (s ++ t) t = true.
Proof.
  unfold HasSuffix. rewrite str_length_app.
  apply andb_true_iff; split.
  - apply Nat.leb_le; lia.
  - replace (String.length s + String.length t - String.length t)%nat
      with (String.length s) by lia.
    rewrite str_drop_app_length. apply String.eqb_refl.
Qed.

Lemma wrap_id (z : Z) : GoInt.in_range z -> GoInt.wrap z = z.
Proof.
  unfold GoInt.in_range, GoInt.int_min, GoInt.int_max, GoInt.wrap; intros H.
  rewrite Z.mod_small; lia.
Qed.

End StrLemmas.

(** [truncate] leaves a string that fits untouched. *)
Lemma truncate_fits (s : string) (n : Z) :
  Str.len s <= n -> truncate s n = Done s.
Proof.
  intros H. unfold truncate.
  destruct (Z.leb_spec (Str.len s) n); [reflexivity | lia].
Qed.

(** A string that does not fit is cut to its first [n-3] bytes plus the
    ellipsis, as long as there is room for the ellipsis. *)
Lemma truncate_cuts (s : string) (n : Z) :
  3 <= n -> n < Str.len s -> GoInt.in_range n ->
  truncate s n = Done (Str.take (Z.to_nat (n - 3)) s ++ "...").
Proof.
  intros H3 Hlt Hr. unfold truncate, GoInt.sub, Str.slice_to.
  destruct (Z.leb_spec (Str.len s) n); [lia |].
  rewrite wrap_id.
  2:{ unfold GoInt.in_range, GoInt.int_min, GoInt.int_max in *. lia. }
  destruct (Z.leb_spec 0 (n - 3)); [| lia].
  destruct (Z.leb_spec (n - 3) (Str.len s)); [| lia].
  reflexivity.
Qed.

(** Without room for the ellipsis the slice [s[:max-3]] is out of range. *)
Lemma truncate_panics (s : string) (n : Z) :
  GoInt.int_min + 3 <= n < 3 -> n < Str.len s ->
  truncate s n = Panic SliceBounds.
Proof.
  intros H3 Hlt. unfold truncate, GoInt.sub, Str.slice_to.
  destruct (Z.leb_spec (Str.len s) n); [lia |].
  rewrite wrap_id.
  2:{ unfold GoInt.in_range, GoInt.int_min, GoInt.int_max in *. lia. }
  destruct (Z.leb_spec 0 (n - 3)); [lia | reflexivity].
Qed.

Lemma truncate_cut (s : string) (n : Z) :
  3 <= n -> GoInt.in_range n -> truncate s n = Done (cut s n).
Proof.
  intros H3 Hr. unfold cut.
  destruct (Z.leb_spec (Str.len s) n) as [Hle|Hlt].
  - now apply truncate_fits.
  - now apply truncate_cuts.
Qed.

Lemma len_cut (s : string) (n : Z) :
  3 <= n -> n < Str.len s -> Str.len (cut s n) = n.
Proof.
  intros H3 Hlt. unfold cut.
  destruct (Z.leb_spec (Str.len s) n); [lia |].
  unfold Str.len in *. rewrite str_length_app, str_length_take by lia.
  simpl. lia.
Qed.

(** *** C4: truncate *)

(** C4 (as amended).  [truncate s n] returns [s] unchanged when
    [len s <= n]; otherwise, provided [n >= 3], it returns a string of
    exactly [n] bytes that ends in "...": the first [n-3] bytes of [s]
    followed by the ellipsis. *)
Theorem truncate_spec (s : string) (n : Z) :
  GoInt.in_range n ->
  (Str.len s <= n -> truncate s n = Done s) /\
  (n < Str.len s -> 3 <= n ->
   exists t, truncate s n = Done t /\
             Str.len t = n /\
             Str.HasSuffix t "..." = true /\
             t = Str.take (Z.to_nat (n - 3)) s ++ "...").
Proof.
  intros Hr. split.
  - apply truncate_fits.
  - intros Hlt H3. eexists. split; [now apply truncate_cuts |].
    split; [| split; [apply HasSuffix_app | reflexivity]].
    pose proof (len_cut s n H3 Hlt) as Hl. unfold cut in Hl.
    destruct (Z.leb_spec (Str.len s) n); [lia | exact Hl].
Qed.

Lemma truncate_spec_witness :
  truncate "abc" 5 = Done "abc" /\
  exists t, truncate "abcdefgh" 5 = Done t /\ Str.len t = 5 /\
            Str.HasSuffix t "..." = true /\
            t = Str.take (Z.to_nat (5 - 3)) "abcdefgh" ++ "...".
Proof.
  assert (Hr : GoInt.in_range 5) by (unfold GoInt.in_range; vm_compute; split; discriminate).
  split.
  - apply (proj1 (truncate_spec "abc" 5 Hr)). vm_compute. discriminate.
  - apply (proj2 (truncate_spec "abcdefgh" 5 Hr)).
    + vm_compute. reflexivity.
    + lia.
Defined.

(** C4, counterexample.  With [n = 2] a four-byte string does not fit, yet
    no two-byte result ending in "..." comes back: the call panics on the
    slice [s[:-1]]. *)
Lemma truncate_below_three_panics :
  2 < Str.len "abcd" /\
  truncate "abcd" 2 = Panic SliceBounds /\
  ~ (exists t, truncate "abcd" 2 = Done t /\ Str.len t = 2 /\
               Str.HasSuffix t "..." = true).
Proof.
  split; [reflexivity |]. split; [reflexivity |].
  intros (t & Ht & _). discriminate Ht.
Qed.

(** *** C5: status words *)

Section StatusWords.
Context `{!Strings} `{!Lipgloss}.

(** C5.  [formatStatus] is a total function of the state string: each of
    the seven recognised states maps to its fixed label (rendered in the
    state's style), and every other string maps to its upper-cased form. *)
Theorem formatStatus_table (state : string) :
  formatStatus "running" = Render runningStyle "RUNNING" /\
  formatStatus "exited" = Render stoppedStyle "STOPPED" /\
  formatStatus "paused" = Render pausedStyle "PAUSED" /\
  formatStatus "restarting" = Render pausedStyle "RESTART" /\
  formatStatus "removing" = Render stoppedStyle "REMOVING" /\
  formatStatus "dead" = Render stoppedStyle "DEAD" /\
  formatStatus "created" = Render pausedStyle "CREATED" /\
  (~ In state (List.map fst statusTable) -> formatStatus state = ToUpper state) /\
  (forall style label, In (state, (style, label)) statusTable ->
                       formatStatus state = Render style label).
Proof.
  repeat (split; [reflexivity |]). split.
  - intros Hnot. unfold formatStatus.
    repeat match goal with
    | |- context [String.eqb state ?k] =>
        destruct (String.eqb_spec state k) as [->|_];
        [exfalso; apply Hnot; simpl; tauto |]
    end.
    reflexivity.
  - intros style label Hin. simpl in Hin.
    repeat (destruct Hin as [Hin|Hin]; [injection Hin as <- <- <-; reflexivity |]).
    destruct Hin.
Qed.

End StatusWords.

(** ** Integers and the column layout *)

Lemma wrap_in_range (z : Z) : GoInt.in_range (GoInt.wrap z).
Proof.
  unfold GoInt.in_range, GoInt.int_min, GoInt.int_max, GoInt.wrap.
  pose proof (Z.mod_pos_bound (z + 2 ^ 63) (2 ^ 64)). lia.
Qed.

Lemma max_Zmax (a b : Z) : GoInt.max a b = Z.max a b.
Proof. unfold GoInt.max. destruct (Z.gtb_spec a b); lia. Qed.

Lemma in_range_small (z : Z) : 0 <= z <= 1000 -> GoInt.in_range z.
Proof. unfold GoInt.in_range, GoInt.int_min, GoInt.int_max. lia. Qed.

Lemma max_in_range (a b : Z) :
  GoInt.in_range a -> GoInt.in_range b -> GoInt.in_range (GoInt.max a b).
Proof. rewrite max_Zmax. unfold GoInt.in_range. lia. Qed.

(** Whatever the width, the installed columns leave room for the ellipsis. *)
Lemma tableColumns_roomy (w : Z) : roomy (tableColumns w).
Proof.
  unfold roomy, tableColumns. cbv zeta.
  repeat (apply List.Forall_cons; [cbn [Width] |]); try apply List.Forall_nil;
    (split;
     [ rewrite ?max_Zmax; lia
     | first [ apply in_range_small; lia
             | apply max_in_range;
               [apply in_range_small; lia | apply wrap_in_range] ] ]).
Qed.

(** From width 80 on, no operation of the layout wraps around. *)
Lemma tableColumns_exact (w : Z) :
  80 <= w -> GoInt.in_range w ->
  let rest := w - 40 in
  let name := Z.max 20 (rest / 3) in
  let image := Z.max 25 (rest / 3) in
  let ports := Z.max 20 (rest - name - image) in
  tableColumns w =
  [ {| Title := "ID"; Width := 14 |};
    {| Title := "NAME"; Width := name |};
    {| Title := "IMAGE"; Width := image |};
    {| Title := "STATUS"; Width := 16 |};
    {| Title := "PORTS"; Width := ports |} ].
Proof.
  intros Hw Hr. unfold tableColumns. cbv zeta.
  change (GoInt.add (GoInt.add 14 16) 10) with 40.
  assert (Hrange : forall z, - 2 ^ 63 <= z <= 2 ^ 63 - 1 -> GoInt.wrap z = z)
    by (intros z Hz; apply wrap_id; exact Hz).
  unfold GoInt.in_range, GoInt.int_min, GoInt.int_max in Hr.
  unfold GoInt.sub, GoInt.div.
  rewrite (Hrange (w - 40)) by lia.
  rewrite Z.quot_div_nonneg by lia.
  assert (Hq : 0 <= (w - 40) / 3 <= w - 40).
  { split; [apply Z.div_pos; lia |].
    apply Z.div_le_upper_bound; lia. }
  rewrite (Hrange ((w - 40) / 3)) by lia.
  rewrite !max_Zmax.
  rewrite (Hrange (w - 40 - Z.max 20 ((w - 40) / 3))) by lia.
  rewrite Hrange by lia.
  reflexivity.
Qed.

(** ** Projection of records to rows *)

Section StrMore.
Import Str.

Lemma str_take_app_le (n : nat) (a b : string) :
  (n <= String.length a)%nat -> take n (a ++ b) = take n a.
Proof.
  revert a; induction n as [|n IH]; intros [|c a] H; simpl in *;
    try reflexivity; try lia.
  rewrite IH; [reflexivity | lia].
Qed.

Lemma str_take_take (n k : nat) (s : string) :
  (n <= k)%nat -> take n (take k s) = take n s.
Proof.
  revert k s; induction n as [|n IH]; intros [|k] [|c s] H; simpl;
    try reflexivity; try lia.
  rewrite IH; [reflexivity | lia].
Qed.

End StrMore.

(** Truncating to 25 and then to [w] is truncating to the smaller bound. *)
Lemma cut_cut (s : string) (w : Z) :
  3 <= w -> cut (cut s 25) w = cut s (Z.min 25 w).
Proof.
  intros Hw.
  destruct (Z_le_gt_dec (Str.len s) 25) as [Hs|Hs].
  - assert (E : cut s 25 = s)
      by (unfold cut; destruct (Z.leb_spec (Str.len s) 25); [reflexivity | lia]).
    rewrite E. unfold cut.
    destruct (Z.leb_spec (Str.len s) w), (Z.leb_spec (Str.len s) (Z.min 25 w));
      try reflexivity; try lia.
    replace (Z.min 25 w) with w by lia. reflexivity.
  - assert (Hl : Str.len (cut s 25) = 25) by (apply len_cut; lia).
    destruct (Z_le_gt_dec 25 w) as [Hw25|Hw25].
    + replace (Z.min 25 w) with 25 by lia.
      unfold cut at 1.
      destruct (Z.leb_spec (Str.len (cut s 25)) w); [reflexivity | lia].
    + replace (Z.min 25 w) with w by lia.
      unfold cut at 1.
      destruct (Z.leb_spec (Str.len (cut s 25)) w); [lia |].
      unfold cut.
      destruct (Z.leb_spec (Str.len s) 25); [lia |].
      destruct (Z.leb_spec (Str.len s) w); [lia |].
      f_equal.
      unfold Str.len in *.
      rewrite str_take_app_le.
      * apply str_take_take. lia.
      * rewrite str_length_take; lia.
Qed.

Lemma cut_dash (w : Z) : 3 <= w -> cut dash w = dash.
Proof.
  intros Hw. unfold cut.
  change (Str.len dash) with 3.
  destruct (Z.leb_spec 3 w); [reflexivity | lia].
Qed.

Tactic Notation "exec_simpl" := cbn [mbind exec_mbind exec_bind].
Tactic Notation "exec_simpl" "in" hyp(H) :=
  cbn [mbind exec_mbind exec_bind] in H.

Section Projection.
Context {T I : Type} `{!TableWidget T} `{!TextInput I}.
Context `{!Strings} `{!Lipgloss} `{!Json}.

Lemma formatPorts_cut (ports : string) :
  formatPorts ports =
  Done (if String.eqb ports "" then dash
        else cut (Str.ReplaceAll ports "0.0.0.0:" "") 25).
Proof.
  unfold formatPorts. destruct (String.eqb ports ""); [reflexivity |].
  apply truncate_cut; [lia | apply in_range_small; lia].
Qed.

Lemma ports_cut_again (ports : string) (w : Z) :
  3 <= w ->
  cut (if String.eqb ports "" then dash
       else cut (Str.ReplaceAll ports "0.0.0.0:" "") 25) w
  = portsCell ports w.
Proof.
  intros Hw. unfold portsCell. destruct (String.eqb ports "").
  - now apply cut_dash.
  - now apply cut_cut.
Qed.

(** With roomy columns a record always projects, to [rowOf]. *)
Lemma containerToRow_roomy (t : T) (c : Container) :
  roomy (Columns t) -> containerToRow t c = Done (rowOf (Columns t) c).
Proof.
  intros Hroomy. unfold containerToRow, rowOf, widthAt.
  destruct (Z.ltb_spec (Z.of_nat (length (Columns t))) 5) as [Hshort|Hlong].
  - rewrite !truncate_cut by (try lia; apply in_range_small; lia).
    exec_simpl. rewrite formatPorts_cut. exec_simpl.
    rewrite truncate_cut by (try lia; apply in_range_small; lia).
    exec_simpl. rewrite ports_cut_again by lia. reflexivity.
  - destruct (Columns t) as [|k0 [|k1 [|k2 [|k3 [|k4 rest]]]]];
      try (cbn [length] in Hlong; lia).
    unfold roomy in Hroomy.
    apply Forall_cons in Hroomy as [[Hk0 Rk0] Hroomy].
    apply Forall_cons in Hroomy as [[Hk1 Rk1] Hroomy].
    apply Forall_cons in Hroomy as [[Hk2 Rk2] Hroomy].
    apply Forall_cons in Hroomy as [_ Hroomy].
    apply Forall_cons in Hroomy as [[Hk4 Rk4] _].
    unfold col_width. cbn [lookup list_lookup]. exec_simpl.
    rewrite (truncate_cut _ (Width k0)) by assumption. exec_simpl.
    rewrite (truncate_cut _ (Width k1)) by assumption. exec_simpl.
    rewrite (truncate_cut _ (Width k2)) by assumption. exec_simpl.
    rewrite formatPorts_cut. exec_simpl.
    rewrite (truncate_cut _ (Width k4)) by assumption. exec_simpl.
    rewrite ports_cut_again by assumption. reflexivity.
Qed.

Lemma projectRows_roomy (t : T) (filtered : list Container) (rows : list Row) :
  roomy (Columns t) ->
  projectRows t filtered rows
  = Done (rows ++ List.map (rowOf (Columns t)) filtered)%list.
Proof.
  intros Hroomy. revert rows.
  induction filtered as [|c rest IH]; intros rows; cbn [projectRows List.map].
  - now rewrite app_nil_r.
  - rewrite containerToRow_roomy by assumption. exec_simpl.
    rewrite IH, <- app_assoc. reflexivity.
Qed.

Lemma updateTable_roomy (m : model) :
  roomy (Columns (table m)) ->
  updateTable m =
  Done (set_table
          (SetRows (projection (Columns (table m)) (containers m)
                               (Value (filter m)))
                   (table m)) m).
Proof.
  intros Hroomy. unfold updateTable.
  rewrite projectRows_roomy by assumption. reflexivity.
Qed.

Lemma updateTable_columns (m m' : model) :
  updateTable m = Done m' -> Columns (table m') = Columns (table m).
Proof.
  unfold updateTable.
  destruct (projectRows _ _ _) as [rows|p]; exec_simpl; [| discriminate].
  intros [= <-]. cbn. apply Columns_SetRows.
Qed.

(** The state [updateTableSize] leads to: width clamped, columns, height and
    rows reinstalled. *)
Lemma updateTableSize_done (m : model) :
  let w := if width m <? 80 then 80 else width m in
  let cols := tableColumns w in
  let h := GoInt.max 10 (GoInt.sub (height m) 10) in
  let t := SetHeight h (SetColumns cols (table m)) in
  updateTableSize m =
  Done {| table := SetRows (projection cols (containers m) (Value (filter m))) t;
          containers := containers m; filter := filter m;
          filtering := filtering m; err := err m; width := w;
          height := height m; statusMsg := statusMsg m;
          loading := loading m |}.
Proof.
  cbv zeta. unfold updateTableSize.
  rewrite updateTable_roomy.
  - destruct (width m <? 80); cbn;
      rewrite Columns_SetHeight, Columns_SetColumns; reflexivity.
  - destruct (width m <? 80); cbn;
      rewrite Columns_SetHeight, Columns_SetColumns; apply tableColumns_roomy.
Qed.

(** *** C1: the column layout *)

(** C1 (as amended).  For every terminal width [w >= 80] the name, image and
    ports columns installed by [updateTableSize] are at least 20, 25 and 20
    wide; the five widths plus the 10-unit reserve stay within [w] exactly
    when [w >= 107] (and then add up to [w]). *)
Theorem updateTableSize_layout (m : model) :
  80 <= width m -> GoInt.in_range (width m) ->
  exists m' name image ports,
    updateTableSize m = Done m' /\
    List.map Width (Columns (table m')) = [14; name; image; 16; ports] /\
    name = Z.max 20 ((width m - 40) / 3) /\
    image = Z.max 25 ((width m - 40) / 3) /\
    ports = Z.max 20 (width m - 40 - name - image) /\
    20 <= name /\ 25 <= image /\ 20 <= ports /\
    (14 + name + image + 16 + ports + 10 <= width m <-> 107 <= width m) /\
    (107 <= width m -> 14 + name + image + 16 + ports + 10 = width m).
Proof.
  intros Hw Hr.
  pose proof (updateTableSize_done m) as Hdone. cbv zeta in Hdone.
  destruct (Z.ltb_spec (width m) 80) as [Hlt|_]; [lia |].
  rewrite (tableColumns_exact (width m) Hw Hr) in Hdone.
  eexists _, _, _, _. split; [exact Hdone |].
  cbn [table]. rewrite Columns_SetRows, Columns_SetHeight, Columns_SetColumns.
  split; [reflexivity |].
  split; [reflexivity |]. split; [reflexivity |]. split; [reflexivity |].
  pose proof (Z.div_mod (width m - 40) 3 ltac:(lia)) as Hdm.
  pose proof (Z.mod_pos_bound (width m - 40) 3 ltac:(lia)) as Hmod.
  set (q := (width m - 40) / 3) in *.
  set (r := (width m - 40) mod 3) in *.
  cbn [Width]. repeat split; lia.
Qed.

End Projection.

(** ** [ReplaceAll] *)

Section StrReplace.
Import Str.

Lemma replace_from_skip (a s old new : string) :
  replace_from (String.length a) (a ++ s) old new = replace_from 0 s old new.
Proof. induction a as [|c a IH]; simpl; [reflexivity | exact IH]. Qed.

Lemma HasPrefix_app (old s : string) : HasPrefix (old ++ s) old = true.
Proof.
  induction old as [|c old IH]; simpl; [reflexivity |].
  now rewrite Ascii.eqb_refl, IH.
Qed.

(** The three equations of a left-to-right replacement of non-overlapping
    occurrences. *)
Lemma ReplaceAll_nil (old new : string) : ReplaceAll "" old new = "".
Proof. reflexivity. Qed.

Lemma ReplaceAll_match (s old new : string) :
  old <> "" -> ReplaceAll (old ++ s) old new = new ++ ReplaceAll s old new.
Proof.
  intros Hne. destruct old as [|c old]; [contradiction |].
  unfold ReplaceAll.
  change (String c old ++ s) with (String c (old ++ s)).
  cbn [replace_from].
  change (String c (old ++ s)) with (String c old ++ s).
  rewrite HasPrefix_app.
  replace (String.length (String c old) - 1)%nat with (String.length old)
    by (simpl; lia).
  now rewrite replace_from_skip.
Qed.

Lemma ReplaceAll_other (c : ascii) (s old new : string) :
  HasPrefix (String c s) old = false ->
  ReplaceAll (String c s) old new = String c (ReplaceAll s old new).
Proof. intros Hp. unfold ReplaceAll. cbn [replace_from]. now rewrite Hp. Qed.

End StrReplace.

(** *** C3: the ports cell *)

Section PortsCell.
Context {T : Type} `{!TableWidget T} `{!Strings} `{!Lipgloss}.

(** C3 (as amended).  For every record and every layout whose columns leave
    room for the ellipsis, the ports cell of the projected row is the dash
    when the raw ports string is empty; otherwise it is the raw string with
    the occurrences of "0.0.0.0:" removed, truncated to the smaller of 25
    and the ports column width (25 when the table has no five columns). *)
Theorem containerToRow_ports (t : T) (c : Container) :
  roomy (Columns t) ->
  exists row,
    containerToRow t c = Done row /\
    row !! 4%nat =
    Some (if String.eqb (Ports c) "" then dash
          else cut (Str.ReplaceAll (Ports c) "0.0.0.0:" "")
                   (Z.min 25 (widthAt (Columns t) 4 25))).
Proof.
  intros Hroomy. exists (rowOf (Columns t) c).
  split; [now apply containerToRow_roomy | reflexivity].
Qed.

End PortsCell.

(** ** Filtering *)

Section StrSearch.
Import Str.

Lemma HasPrefix_spec (s p : string) :
  HasPrefix s p = true <-> exists post, s = p ++ post.
Proof.
  revert s; induction p as [|a p IH]; intros s; simpl.
  - split; [intros _; now exists s | reflexivity].
  - destruct s as [|c s].
    + split; [discriminate | intros [post Hp]; discriminate Hp].
    + rewrite andb_true_iff, IH. split.
      * intros [Hc [post ->]]. apply Ascii.eqb_eq in Hc as ->. now exists post.
      * intros [post [= -> ->]]. split; [apply Ascii.eqb_refl | now exists post].
Qed.

Lemma Contains_spec (s sub : string) :
  Contains s sub = true <-> exists pre post, s = pre ++ sub ++ post.
Proof.
  induction s as [|c s IH]; simpl; rewrite orb_true_iff.
  - split.
    + intros [Hp|Hf]; [| discriminate].
      apply HasPrefix_spec in Hp as [post Hp]. now exists "", post.
    + intros (pre & post & Hs). left. apply HasPrefix_spec.
      destruct pre; [now exists post | discriminate Hs].
  - rewrite IH. split.
    + intros [Hp|(pre & post & ->)].
      * apply HasPrefix_spec in Hp as [post Hp]. now exists "", post.
      * now exists (String c pre), post.
    + intros (pre & post & Hs). destruct pre as [|a pre]; simpl in Hs.
      * left. apply HasPrefix_spec. now exists post.
      * injection Hs as -> ->. right. now exists pre, post.
Qed.

End StrSearch.

Lemma fold_left_keep {A} (keep : A -> bool) (l acc : list A) :
  fold_left (fun kept x => if keep x then (kept ++ [x])%list else kept) l acc
  = (acc ++ List.filter keep l)%list.
Proof.
  revert acc; induction l as [|x l IH]; intros acc; simpl.
  - now rewrite app_nil_r.
  - rewrite IH. destruct (keep x); [| reflexivity].
    now rewrite <- app_assoc.
Qed.

Lemma filter_sublist {A} (keep : A -> bool) (l : list A) :
  List.filter keep l `sublist_of` l.
Proof.
  induction l as [|x l IH]; simpl.
  - constructor.
  - destruct (keep x); now constructor.
Qed.

(** *** C2: filterContainers *)

Section Filtering.
Context `{!Strings}.

Lemma keeps_matches (text : string) (c : Container) :
  keeps (ToLower text) c = true <-> matchesFilter text c.
Proof.
  unfold keeps, matchesFilter, substringOf.
  rewrite !orb_true_iff, !Contains_spec, !Exists_cons, Exists_nil.
  tauto.
Qed.

Lemma filterContainers_empty (R : list Container) : filterContainers R "" = R.
Proof. reflexivity. Qed.

Lemma filterContainers_filter (R : list Container) (F : string) :
  F <> "" -> filterContainers R F = List.filter (keeps (ToLower F)) R.
Proof.
  intros HF. unfold filterContainers.
  destruct (String.eqb_spec F ""); [contradiction |].
  cbv zeta. now rewrite fold_left_keep.
Qed.

Lemma filterContainers_sublist (R : list Container) (F : string) :
  filterContainers R F `sublist_of` R.
Proof.
  destruct (String.eqb_spec F "") as [->|HF].
  - reflexivity.
  - rewrite filterContainers_filter by assumption. apply filter_sublist.
Qed.

(** C2.  [filterContainers R F] is an order-preserving subsequence of [R];
    for the empty text it is [R]; otherwise it keeps exactly the records one
    of whose fields (name without its leading "/", image, state, id, ports),
    lower-cased, contains the lower-cased text. *)
Theorem filterContainers_spec (R : list Container) (F : string) :
  filterContainers R F `sublist_of` R /\
  (F = "" -> filterContainers R F = R) /\
  (F <> "" ->
   filterContainers R F = List.filter (keeps (ToLower F)) R /\
   (forall c, keeps (ToLower F) c = true <-> matchesFilter F c) /\
   (forall c, In c (filterContainers R F) <-> In c R /\ matchesFilter F c)).
Proof.
  split; [apply filterContainers_sublist | split].
  - intros ->. apply filterContainers_empty.
  - intros HF. split; [now apply filterContainers_filter |].
    split; [apply keeps_matches |].
    intros c. rewrite filterContainers_filter by assumption.
    rewrite List.filter_In, keeps_matches. reflexivity.
Qed.

End Filtering.

(** ** Splitting and trimming *)

Section StrSplitTrim.
Import Str.

Lemma Split_nonempty (s : string) (sep : ascii) : Split s sep <> [].
Proof.
  destruct s as [|c s]; simpl; [discriminate |].
  destruct (Ascii.eqb c sep); [discriminate |].
  destruct (Split s sep); discriminate.
Qed.

Lemma Join_cons_byte (c sep : ascii) (piece : string) (rest : list string) :
  Join (String c piece :: rest) sep = String c (Join (piece :: rest) sep).
Proof. destruct rest; reflexivity. Qed.

(** Joining the pieces with the separator gives the string back. *)
Lemma Split_Join (s : string) (sep : ascii) : Join (Split s sep) sep = s.
Proof.
  induction s as [|c s IH]; [reflexivity |]. cbn [Split].
  destruct (Ascii.eqb_spec c sep) as [->|Hne].
  - destruct (Split s sep) as [|piece rest] eqn:E.
    + now apply Split_nonempty in E.
    + change (Join (EmptyString :: piece :: rest) sep)
        with (String sep (Join (piece :: rest) sep)).
      now rewrite IH.
  - destruct (Split s sep) as [|piece rest] eqn:E.
    + now apply Split_nonempty in E.
    + rewrite Join_cons_byte. now rewrite IH.
Qed.

(** No piece contains the separator. *)
Lemma Split_no_sep (s : string) (sep : ascii) :
  Forall (fun piece => hasByte sep piece = false) (Split s sep).
Proof.
  induction s as [|c s IH]; cbn [Split].
  - now repeat constructor.
  - destruct (Ascii.eqb c sep) eqn:Hc.
    + constructor; [reflexivity | exact IH].
    + destruct (Split s sep) as [|piece rest].
      * repeat constructor. cbn. now rewrite Hc.
      * apply Forall_cons in IH as [Hp Hrest].
        constructor; [| exact Hrest]. cbn. now rewrite Hc.
Qed.

Lemma str_app_assoc (a b c : string) : (a ++ b) ++ c = a ++ b ++ c.
Proof. induction a as [|x a IH]; simpl; [reflexivity | now rewrite IH]. Qed.

Lemma str_app_empty_r (a : string) : a ++ "" = a.
Proof. induction a as [|x a IH]; simpl; [reflexivity | now rewrite IH]. Qed.

Lemma str_rev_onto_spec (s acc : string) : rev_onto s acc = rev s ++ acc.
Proof.
  unfold rev. revert acc.
  induction s as [|c s IH]; intros acc; simpl; [reflexivity |].
  rewrite IH, (IH (String c "")), str_app_assoc. reflexivity.
Qed.

Lemma str_rev_cons (c : ascii) (s : string) : rev (String c s) = rev s ++ String c "".
Proof. unfold rev at 1. simpl. apply str_rev_onto_spec. Qed.

Lemma str_rev_app (a b : string) : rev (a ++ b) = rev b ++ rev a.
Proof.
  induction a as [|c a IH]; simpl.
  - now rewrite str_app_empty_r.
  - now rewrite !str_rev_cons, IH, str_app_assoc.
Qed.

Lemma str_rev_involutive (s : string) : rev (rev s) = s.
Proof.
  induction s as [|c s IH]; [reflexivity |].
  now rewrite str_rev_cons, str_rev_app, IH.
Qed.

Lemma str_length_rev (s : string) : String.length (rev s) = String.length s.
Proof.
  induction s as [|c s IH]; [reflexivity |].
  rewrite str_rev_cons, str_length_app, IH. simpl. lia.
Qed.

Lemma str_concat_app (xs ys : list string) :
  concat (xs ++ ys)%list = concat xs ++ concat ys.
Proof.
  induction xs as [|x xs IH]; simpl; [reflexivity |].
  now rewrite IH, str_app_assoc.
Qed.

(** A stripped rune is one of [runes], and it was the prefix. *)
Lemma strip_rune_spec (runes : list string) (s s' : string) :
  strip_rune runes s = Some s' -> exists r, In r runes /\ s = r ++ s'.
Proof.
  induction runes as [|r runes IH]; simpl; [discriminate |].
  destruct (HasPrefix s r) eqn:Hp.
  - intros [= <-]. apply HasPrefix_spec in Hp as [post ->].
    exists r. split; [now left |]. now rewrite str_drop_app_length.
  - intros Hs. destruct (IH Hs) as (r' & Hin & ->). exists r'. split; [now right | reflexivity].
Qed.

Lemma strip_rune_none_prefix (runes : list string) (s post : string) :
  strip_rune runes (s ++ post) = None -> strip_rune runes s = None.
Proof.
  induction runes as [|r runes IH]; simpl; [reflexivity |].
  destruct (HasPrefix (s ++ post) r) eqn:Hp; [discriminate |].
  destruct (HasPrefix s r) eqn:Hs; [| exact IH].
  apply HasPrefix_spec in Hs as [rest ->].
  assert (HasPrefix ((r ++ rest) ++ post) r = true) as Habs.
  { apply HasPrefix_spec. exists (rest ++ post). apply str_app_assoc. }
  congruence.
Qed.

(** What [trim_left_fuel] removes is a concatenation of runes. *)
Lemma trim_left_fuel_prefix (fuel : nat) (runes : list string) (s : string) :
  exists rs, Forall (fun r => In r runes) rs /\
             s = concat rs ++ trim_left_fuel fuel runes s.
Proof.
  revert s; induction fuel as [|fuel IH]; intros s; simpl.
  - exists []. split; [constructor | reflexivity].
  - destruct (strip_rune runes s) as [s'|] eqn:E.
    + apply strip_rune_spec in E as (r & Hin & ->).
      destruct (IH s') as (rs & Hrs & Hs').
      exists (r :: rs). split; [now constructor |].
      simpl. rewrite str_app_assoc. now rewrite <- Hs'.
    + exists []. split; [constructor | reflexivity].
Qed.

(** With enough fuel, nothing is left to strip. *)
Lemma trim_left_fuel_done (fuel : nat) (runes : list string) (s : string) :
  Forall (fun r => r <> "") runes ->
  (String.length s <= fuel)%nat ->
  strip_rune runes (trim_left_fuel fuel runes s) = None.
Proof.
  intros Hne. revert s; induction fuel as [|fuel IH]; intros s Hlen; simpl.
  - destruct s; [| simpl in Hlen; lia].
    clear Hlen. induction Hne as [|r runes Hr _ IHr]; simpl; [reflexivity |].
    destruct r; [contradiction | exact IHr].
  - destruct (strip_rune runes s) as [s'|] eqn:E; [| exact E].
    apply IH. apply strip_rune_spec in E as (r & Hin & ->).
    rewrite List.Forall_forall in Hne. specialize (Hne r Hin).
    rewrite str_length_app in Hlen. destruct r; [contradiction |].
    simpl in Hlen. lia.
Qed.

Lemma space_runes_nonempty : Forall (fun r => r <> "") space_runes.
Proof. unfold space_runes. repeat constructor; discriminate. Qed.

Lemma rev_space_runes_nonempty :
  Forall (fun r => r <> "") (List.map rev space_runes).
Proof. unfold space_runes. repeat constructor; discriminate. Qed.

Lemma TrimLeft_spec (s : string) :
  (exists pre, Spaces pre /\ s = pre ++ TrimLeft s) /\
  leadingSpace (TrimLeft s) = false.
Proof.
  split.
  - destruct (trim_left_fuel_prefix (String.length s) space_runes s)
      as (rs & Hrs & Hs).
    exists (concat rs). split; [now exists rs | exact Hs].
  - unfold leadingSpace, TrimLeft.
    now rewrite trim_left_fuel_done by (apply space_runes_nonempty || lia).
Qed.

Lemma concat_rev_runes (rs : list string) :
  Forall (fun r => In r (List.map rev space_runes)) rs ->
  Spaces (rev (concat rs)).
Proof.
  induction 1 as [|r rs Hr _ IH]; simpl.
  - exists []. split; [constructor | reflexivity].
  - rewrite str_rev_app. destruct IH as (ws & Hws & ->).
    apply List.in_map_iff in Hr as (w & <- & Hw).
    rewrite str_rev_involutive.
    exists (ws ++ [w])%list. split.
    + apply Forall_app. split; [exact Hws |].
      apply List.Forall_cons; [exact Hw | apply List.Forall_nil].
    + rewrite str_concat_app. simpl. now rewrite str_app_empty_r.
Qed.

Lemma TrimRight_spec (s : string) :
  (exists post, Spaces post /\ s = TrimRight s ++ post) /\
  trailingSpace (TrimRight s) = false.
Proof.
  unfold TrimRight, trailingSpace. split.
  - destruct (trim_left_fuel_prefix (String.length s)
                (List.map rev space_runes) (rev s)) as (rs & Hrs & Hs).
    exists (rev (concat rs)). split; [now apply concat_rev_runes |].
    rewrite <- str_rev_app, <- Hs. symmetry. apply str_rev_involutive.
  - rewrite str_rev_involutive.
    rewrite trim_left_fuel_done; [reflexivity | |].
    + apply rev_space_runes_nonempty.
    + rewrite str_length_rev. lia.
Qed.

(** [TrimSpace] removes a run of white space at either end and leaves a
    string that neither begins nor ends with a space rune. *)
Lemma TrimSpace_spec (s : string) :
  (exists pre post, Spaces pre /\ Spaces post /\ s = pre ++ TrimSpace s ++ post) /\
  leadingSpace (TrimSpace s) = false /\
  trailingSpace (TrimSpace s) = false.
Proof.
  unfold TrimSpace.
  destruct (TrimLeft_spec s) as [(pre & Hpre & Hs) Hlead].
  destruct (TrimRight_spec (TrimLeft s)) as [(post & Hpost & Hu) Htrail].
  split; [| split].
  - exists pre, post. split; [exact Hpre |]. split; [exact Hpost |].
    now rewrite <- Hu.
  - unfold leadingSpace in *.
    destruct (strip_rune space_runes (TrimLeft s)) eqn:E; [discriminate |].
    rewrite Hu in E. now rewrite (strip_rune_none_prefix _ _ _ E).
  - exact Htrail.
Qed.

End StrSplitTrim.

(** ** The record parser *)

Section Parser.
Context `{!Json}.

Lemma decodeLines_spec (lines : list string) (acc : list Container) :
  decodeLines lines acc
  = (acc ++ omap Unmarshal (List.filter nonEmpty lines))%list.
Proof.
  revert acc; induction lines as [|line lines IH]; intros acc; simpl.
  - now rewrite app_nil_r.
  - unfold nonEmpty at 1.
    destruct (String.eqb line ""); simpl; [apply IH |].
    destruct (Unmarshal line) as [c|]; rewrite IH; [| reflexivity].
    now rewrite <- app_assoc.
Qed.

(** *** C6: loadContainers *)

(** C6.  The parser trims the white space around the listing, splits it on
    newlines, skips empty lines and keeps, in source order, the records of
    the lines that decode; lines that fail to decode are dropped.  In
    particular two malformed lines and one valid line, in any order, yield
    exactly one record. *)
Theorem loadContainers_decodes (output : string) :
  let trimmed := Str.TrimSpace output in
  let lines := Str.Split trimmed Str.newline in
  ((exists pre post,
      Str.Spaces pre /\ Str.Spaces post /\ output = pre ++ trimmed ++ post) /\
   Str.leadingSpace trimmed = false /\ Str.trailingSpace trimmed = false) /\
  (Str.Join lines Str.newline = trimmed /\
   Forall (fun line => Str.hasByte Str.newline line = false) lines) /\
  loadContainers (Output output)
  = containersLoaded (omap Unmarshal (List.filter nonEmpty lines)) /\
  (forall bad1 bad2 good c,
     Permutation (List.filter nonEmpty lines) [bad1; bad2; good] ->
     Unmarshal bad1 = None -> Unmarshal bad2 = None ->
     Unmarshal good = Some c ->
     loadContainers (Output output) = containersLoaded [c]).
Proof.
  cbv zeta.
  assert (E : loadContainers (Output output)
              = containersLoaded (decodedLines output)).
  { unfold loadContainers, decodedLines. now rewrite decodeLines_spec. }
  split; [apply TrimSpace_spec |].
  split; [split; [apply Split_Join | apply Split_no_sep] |].
  split; [exact E |].
  intros bad1 bad2 good c Hperm Hb1 Hb2 Hg. rewrite E. f_equal.
  unfold decodedLines.
  assert (Hp : omap Unmarshal
                 (List.filter nonEmpty
                    (Str.Split (Str.TrimSpace output) Str.newline))
               ≡ₚ omap Unmarshal [bad1; bad2; good])
    by (now apply omap_Permutation).
  simpl in Hp. rewrite Hb1, Hb2, Hg in Hp.
  now apply Permutation_singleton_r in Hp.
Qed.

End Parser.

(** ** The transition function *)

Section Transitions.
Context {T I : Type} `{!TableWidget T} `{!TextInput I}.
Context `{!Strings} `{!Lipgloss} `{!Json}.

(** [updateTable] only replaces the rows of the table. *)
Lemma updateTable_frame (m m' : model) :
  updateTable m = Done m' ->
  exists rows, m' = set_table (SetRows rows (table m)) m.
Proof.
  unfold updateTable.
  destruct (projectRows _ _ _) as [rows|p]; exec_simpl; [| discriminate].
  intros [= <-]. now exists rows.
Qed.

Ltac frame_updateTable :=
  match goal with
  | H : context [updateTable ?m] |- _ =>
      let E := fresh "E" in
      let rows := fresh "rows" in
      destruct (updateTable m) eqn:E; exec_simpl in H; [| discriminate H];
      apply updateTable_frame in E as [rows ->]
  end.

Ltac split_update H :=
  repeat match type of H with
  | context [if ?b then _ else _] => destruct b eqn:?
  | context [let '(_, _) := ?p in _] => destruct p eqn:?
  | context [getSelectedContainer ?m] =>
      let c := fresh "c" in
      destruct (getSelectedContainer m) as [[c|]|]; exec_simpl in H
  | context [Str.slice_to ?s ?k] =>
      destruct (Str.slice_to s k); exec_simpl in H
  | context [updateTable ?m] => frame_updateTable
  | Panic _ = Done _ => discriminate H
  end.

(** No transition touches the columns except a resize, which installs
    the columns of [tableColumns]. *)
Lemma Update_roomy (m m' : model) (msg : Msg) (cmd : Cmd) :
  roomy (Columns (table m)) -> Update m msg = Done (m', cmd) ->
  roomy (Columns (table m')).
Proof.
  intros Hroomy Hstep. destruct msg as [w h|key|cs|ok text|e|]; cbn [Update] in Hstep.
  - rewrite updateTableSize_done in Hstep. exec_simpl in Hstep.
    injection Hstep as <- <-. cbn [table].
    rewrite Columns_SetRows, Columns_SetHeight, Columns_SetColumns.
    apply tableColumns_roomy.
  - split_update Hstep; injection Hstep as <- <-; cbn [table set_table
      set_filter set_filtering set_statusMsg set_loading];
      rewrite ?Columns_SetRows; try assumption.
    match goal with
    | E : table_Update ?k ?t = (?t', ?c') |- _ =>
        change t' with (fst (t', c')); rewrite <- E, Columns_Update
    end.
    assumption.
  - split_update Hstep; injection Hstep as <- <-; cbn;
      rewrite ?Columns_SetRows; assumption.
  - injection Hstep as <- <-. assumption.
  - injection Hstep as <- <-. assumption.
  - injection Hstep as <- <-. assumption.
Qed.

Lemma initialModel_roomy : roomy (Columns (table initialModel)).
Proof.
  cbn [table initialModel]. rewrite Columns_New. unfold roomy.
  repeat (apply List.Forall_cons;
          [cbn [Width]; split; [lia | apply in_range_small; lia] |]).
  apply List.Forall_nil.
Qed.

(** In every reachable state the columns leave room for the ellipsis, so
    the projection of the records never panics. *)
Lemma Reachable_roomy (m : model) : Reachable m -> roomy (Columns (table m)).
Proof.
  induction 1 as [|m msg m' cmd _ IH Hstep].
  - apply initialModel_roomy.
  - eapply Update_roomy; eassumption.
Qed.

(** *** C8: a listing arrives *)

(** C8.  In every state the program can be in, a [containersLoaded] message
    replaces the records, reprojects the rows from the new records and the
    current filter text, clears [loading], and clears the status message
    exactly when it was "Refreshing containers..."; no other field changes
    and no command is issued. *)
Theorem Update_containersLoaded (m : model) (cs : list Container) :
  Reachable m ->
  let rows := projection (Columns (table m)) cs (Value (filter m)) in
  Update m (containersLoaded cs) =
  Done ({| table := SetRows rows (table m);
           containers := cs;
           filter := filter m;
           filtering := filtering m;
           err := err m;
           width := width m;
           height := height m;
           statusMsg := if String.eqb (statusMsg m) "Refreshing containers..."
                        then "" else statusMsg m;
           loading := false |}, CmdNil) /\
  Rows (SetRows rows (table m)) = rows.
Proof.
  intros Hreach rows. split; [| apply Rows_SetRows].
  apply Reachable_roomy in Hreach.
  cbn [Update]. rewrite updateTable_roomy by exact Hreach. exec_simpl.
  cbn [statusMsg set_loading set_table set_containers].
  destruct (String.eqb (statusMsg m) "Refreshing containers..."); reflexivity.
Qed.

(** *** C9: a fatal error *)



(** *** C7 and C10: the action keys *)

Lemma slice_to_12 (id : string) :
  12 <= Str.len id -> Str.slice_to id 12 = Done (Str.take 12 id).
Proof.
  intros Hlen. unfold Str.slice_to.
  destruct (Z.leb_spec 12 (Str.len id)); [reflexivity | lia].
Qed.


(** C7 (as amended).  In browsing mode with a record selected, [s] on a
    running record only sets the status "Container is already running" and
    dispatches nothing; on a record that is not running and whose ID has at
    least 12 bytes it sets "Starting container <first 12 bytes>...", sets
    [loading] and dispatches the start command batched with the refresh
    that fires two seconds later. *)
Theorem Update_key_s (m : model) (c : Container) :
  filtering m = false ->
  getSelectedContainer m = Done (Some c) ->
  (State c = "running" ->
   Update m (KeyMsg "s") =
   Done ({| table := table m; containers := containers m; filter := filter m;
            filtering := filtering m; err := err m; width := width m;
            height := height m;
            statusMsg := "Container is already running";
            loading := loading m |}, CmdNil)) /\
  (State c <> "running" -> 12 <= Str.len (ID c) ->
   Update m (KeyMsg "s") =
   Done ({| table := table m; containers := containers m; filter := filter m;
            filtering := filtering m; err := err m; width := width m;
            height := height m;
            statusMsg := "Starting container " ++ Str.take 12 (ID c) ++ "...";
            loading := true |},
         Batch [StartContainer (ID c); Tick 2 LoadContainers])).
Proof.
  intros Hmode Hsel. split.
  - intros Hrun. cbn [Update]. rewrite Hmode.
    change (String.eqb "s" "ctrl+c" || String.eqb "s" "q") with false.
    change (String.eqb "s" "/") with false.
    change (String.eqb "s" "r") with false.
    change (String.eqb "s" "s") with true.
    cbv iota. rewrite Hsel. exec_simpl. rewrite Hrun.
    change (String.eqb "running" "running") with true. cbv iota.
    unfold set_statusMsg. now rewrite Hmode.
  - intros Hrun Hlen. cbn [Update]. rewrite Hmode.
    change (String.eqb "s" "ctrl+c" || String.eqb "s" "q") with false.
    change (String.eqb "s" "/") with false.
    change (String.eqb "s" "r") with false.
    change (String.eqb "s" "s") with true.
    cbv iota. rewrite Hsel. exec_simpl.
    destruct (String.eqb_spec (State c) "running"); [contradiction |].
    rewrite slice_to_12 by assumption. exec_simpl.
    unfold set_loading, set_statusMsg, sprintf1, refreshLater. cbn.
    now rewrite Hmode.
Qed.

(** What [getSelectedContainer] returns when the cursor is not negative:
    nothing, or one of the records. *)
Lemma getSelectedContainer_cases (m : model) :
  0 <= Cursor (table m) ->
  getSelectedContainer m = Done None \/
  exists c, getSelectedContainer m = Done (Some c) /\ In c (containers m).
Proof.
  intros Hcur. unfold getSelectedContainer.
  destruct (Z.of_nat (length (containers m)) =? 0); [now left |].
  set (filtered := filterContainers (containers m) (Value (filter m))).
  destruct (Z.of_nat (length filtered) =? 0); [now left |].
  destruct (Z.geb_spec (Cursor (table m)) (Z.of_nat (length filtered)))
    as [Hge|Hlt]; [now left |].
  destruct (Z.ltb_spec (Cursor (table m)) 0) as [Hneg|_]; [lia |].
  destruct (lookup_lt_is_Some_2 filtered (Z.to_nat (Cursor (table m))))
    as [c Hc]; [lia |].
  rewrite Hc. right. exists c. split; [reflexivity |].
  apply list_elem_of_In.
  eapply elem_of_sublist; [| apply filterContainers_sublist].
  eapply list_elem_of_lookup_2. exact Hc.
Qed.

Ltac browse_key Hmode :=
  cbn [Update]; rewrite Hmode;
  repeat match goal with
  | |- context [String.eqb ?a ?b] =>
      let v := eval vm_compute in (String.eqb a b) in
      change (String.eqb a b) with v
  end;
  cbn [orb]; cbv iota.

(** With a selected record whose ID has 12 bytes or more, the three action
    keys return normally. *)
Lemma action_keys_return (m : model) (c : Container) (key : string) :
  filtering m = false ->
  getSelectedContainer m = Done (Some c) ->
  12 <= Str.len (ID c) ->
  In key ["s"; "x"; "d"] ->
  exists m' cmd, Update m (KeyMsg key) = Done (m', cmd).
Proof.
  intros Hmode Hsel Hlen Hkey.
  destruct Hkey as [<-|[<-|[<-|[]]]]; browse_key Hmode;
    rewrite Hsel; exec_simpl; rewrite ?slice_to_12 by assumption; exec_simpl.
  - destruct (String.eqb (State c) "running"); eauto.
  - destruct (negb (String.eqb (State c) "running")); eauto.
  - eauto.
Qed.



(** With every ID at least 12 bytes long and a cursor that is not negative
    the three action keys return normally. *)
Lemma action_keys_total (m : model) (key : string) :
  filtering m = false -> 0 <= Cursor (table m) ->
  Forall (fun c => 12 <= Str.len (ID c)) (containers m) ->
  In key ["s"; "x"; "d"] ->
  exists m' cmd, Update m (KeyMsg key) = Done (m', cmd).
Proof.
  intros Hmode Hcur Hids Hkey.
  destruct (getSelectedContainer_cases m Hcur) as [Hnone|(c & Hsel & Hin)].
  - destruct Hkey as [<-|[<-|[<-|[]]]]; browse_key Hmode;
      rewrite Hnone; exec_simpl; eauto.
  - apply (action_keys_return m c key); try assumption.
    rewrite List.Forall_forall in Hids. now apply Hids.
Qed.


End Transitions.

(** ** The theorems at concrete inputs *)

Section Instances.
#[local] Existing Instances
  Demo.strings Demo.lipgloss Demo.json Demo.table_widget Demo.text_input.

Lemma demo_initial_roomy : roomy (Columns (table Demo.initial)).
Proof. apply initialModel_roomy. Qed.

Lemma updateTableSize_layout_witness :
  exists m' name image ports,
    updateTableSize (set_width 120 Demo.initial) = Done m' /\
    List.map Width (Columns (table m')) = [14; name; image; 16; ports] /\
    name = Z.max 20 ((120 - 40) / 3) /\
    image = Z.max 25 ((120 - 40) / 3) /\
    ports = Z.max 20 (120 - 40 - name - image) /\
    20 <= name /\ 25 <= image /\ 20 <= ports /\
    (14 + name + image + 16 + ports + 10 <= 120 <-> 107 <= 120) /\
    (107 <= 120 -> 14 + name + image + 16 + ports + 10 = 120).
Proof.
  apply (updateTableSize_layout (set_width 120 Demo.initial)).
  - cbn. lia.
  - apply in_range_small. cbn. lia.
Defined.

(** C1, counterexample.  At width 80 the minimum widths win: the columns are
    14, 20, 25, 16 and 20 wide, and with the reserve of 10 they need 105. *)
Lemma layout_overflows_at_80 :
  exists m',
    updateTableSize (set_width 80 Demo.initial) = Done m' /\
    List.map Width (Columns (table m')) = [14; 20; 25; 16; 20] /\
    ~ (14 + 20 + 25 + 16 + 20 + 10 <= 80).
Proof.
  eexists. split; [vm_compute; reflexivity |].
  split; [reflexivity | lia].
Qed.

Lemma filterContainers_spec_witness :
  filterContainers [Demo.web; Demo.db] "" = [Demo.web; Demo.db] /\
  filterContainers [Demo.web; Demo.db] "NGINX"
  = List.filter (keeps (ToLower "NGINX")) [Demo.web; Demo.db] /\
  (forall c, keeps (ToLower "NGINX") c = true <-> matchesFilter "NGINX" c) /\
  (forall c, In c (filterContainers [Demo.web; Demo.db] "NGINX")
             <-> In c [Demo.web; Demo.db] /\ matchesFilter "NGINX" c).
Proof.
  split.
  - apply (proj1 (proj2 (filterContainers_spec [Demo.web; Demo.db] ""))).
    reflexivity.
  - apply (proj2 (proj2 (filterContainers_spec [Demo.web; Demo.db] "NGINX"))).
    discriminate.
Defined.

Lemma containerToRow_ports_witness :
  exists row,
    containerToRow (table Demo.initial) Demo.db = Done row /\
    row !! 4%nat =
    Some (if String.eqb (Ports Demo.db) "" then dash
          else cut (Str.ReplaceAll (Ports Demo.db) "0.0.0.0:" "")
                   (Z.min 25 (widthAt (Columns (table Demo.initial)) 4 25))).
Proof.
  apply (containerToRow_ports (table Demo.initial) Demo.db).
  apply demo_initial_roomy.
Defined.

(** C3, counterexample.  On a 160-column terminal the ports column is 40
    wide and the 27 bytes left of the ports of [Demo.db] would fit, yet the
    cell is cut to 25 bytes: [formatPorts] has truncated to 25 before the
    column width is applied. *)
Lemma ports_cell_capped_at_25 :
  let t := SetColumns (tableColumns 160) (table Demo.initial) in
  let stripped := Str.ReplaceAll (Ports Demo.db) "0.0.0.0:" "" in
  widthAt (Columns t) 4 25 = 40 /\
  stripped = "8080->80/tcp, 8443->443/tcp" /\
  cut stripped 40 = stripped /\
  exists row,
    containerToRow t Demo.db = Done row /\
    row !! 4%nat = Some "8080->80/tcp, 8443->44..." /\
    row !! 4%nat <> Some (cut stripped 40).
Proof.
  cbv zeta. split; [reflexivity |]. split; [reflexivity |].
  split; [reflexivity |].
  eexists. split; [vm_compute; reflexivity |].
  split; [reflexivity | discriminate].
Qed.

Lemma formatStatus_table_witness :
  formatStatus "unknown" = ToUpper "unknown" /\
  formatStatus "exited" = Render stoppedStyle "STOPPED".
Proof.
  split.
  - pose proof (formatStatus_table "unknown")
      as (_ & _ & _ & _ & _ & _ & _ & Hother & _).
    apply Hother. simpl. intros Hin.
    repeat (destruct Hin as [Hin|Hin]; [discriminate Hin |]).
    destruct Hin.
  - pose proof (formatStatus_table "exited")
      as (_ & _ & _ & _ & _ & _ & _ & _ & Hknown).
    apply Hknown. simpl. tauto.
Defined.

Lemma loadContainers_decodes_witness :
  loadContainers (Output Demo.listing) = containersLoaded [Demo.json_record].
Proof.
  pose proof (loadContainers_decodes Demo.listing) as (_ & _ & _ & Hone).
  apply (Hone "garbage" "}{" "{c0ffee1234567890}" Demo.json_record).
  - vm_compute. apply perm_skip. apply perm_swap.
  - reflexivity.
  - reflexivity.
  - reflexivity.
Defined.

Lemma Update_key_s_witness :
  Update (Demo.with_records [Demo.web]) (KeyMsg "s")
  = Done (set_statusMsg "Container is already running"
            (Demo.with_records [Demo.web]), CmdNil) /\
  Update (Demo.with_records [Demo.cache]) (KeyMsg "s")
  = Done (set_loading true
            (set_statusMsg "Starting container c0ffee123456..."
               (Demo.with_records [Demo.cache])),
          Batch [StartContainer "c0ffee1234567890"; Tick 2 LoadContainers]).
Proof.
  split.
  - refine (proj1 (Update_key_s (Demo.with_records [Demo.web]) Demo.web
                                _ _) _);
      vm_compute; reflexivity.
  - refine (proj2 (Update_key_s (Demo.with_records [Demo.cache]) Demo.cache
                                _ _) _ _).
    + vm_compute; reflexivity.
    + vm_compute; reflexivity.
    + discriminate.
    + vm_compute. discriminate.
Defined.

(** C7, counterexample.  A selected record that is not running but whose ID
    has four bytes: [s] sets no status and dispatches nothing, the slice
    [ID[:12]] panics. *)
Lemma key_s_short_id_panics :
  let m := Demo.with_records [Demo.db] in
  filtering m = false /\
  getSelectedContainer m = Done (Some Demo.db) /\
  State Demo.db <> "running" /\
  Update m (KeyMsg "s") = Panic SliceBounds /\
  ~ (exists m' cmd, Update m (KeyMsg "s") = Done (m', cmd)).
Proof.
  cbv zeta. split; [reflexivity |]. split; [reflexivity |].
  split; [discriminate |]. split; [reflexivity |].
  intros (m' & cmd & Hstep). vm_compute in Hstep. discriminate Hstep.
Qed.

Lemma Update_containersLoaded_witness :
  Update Demo.initial (containersLoaded [Demo.web; Demo.cache]) =
  Done (Demo.with_records [Demo.web; Demo.cache], CmdNil) /\
  Rows (table (Demo.with_records [Demo.web; Demo.cache])) =
  projection (Columns (table Demo.initial)) [Demo.web; Demo.cache] "".
Proof.
  exact (Update_containersLoaded Demo.initial [Demo.web; Demo.cache]
                                 Reachable_init).
Defined.



End Instances.

(** * Further properties of the program *)

(** ** Truncation and cells *)

Lemma len_cut_le (s : string) (n : Z) : 3 <= n -> Str.len (cut s n) <= n.
Proof.
  intros H3. destruct (Z_le_gt_dec (Str.len s) n) as [Hle|Hgt].
  - unfold cut. destruct (Z.leb_spec (Str.len s) n); [exact Hle | lia].
  - rewrite len_cut by lia. lia.
Qed.

(** X1.  With room for the ellipsis ([n >= 3]) [truncate] never panics, its
    result is at most [n] bytes long, and truncating the result again to the
    same width changes nothing. *)
Theorem truncate_bounded_idempotent (s : string) (n : Z) :
  3 <= n -> GoInt.in_range n ->
  exists t, truncate s n = Done t /\ Str.len t <= n /\ truncate t n = Done t.
Proof.
  intros H3 Hr. exists (cut s n).
  split; [now apply truncate_cut |].
  split; [now apply len_cut_le |].
  apply truncate_fits. now apply len_cut_le.
Qed.

Lemma truncate_bounded_idempotent_witness :
  exists t, truncate "3f2a9c41d7e0aa55" 14 = Done t /\ Str.len t <= 14 /\
            truncate t 14 = Done t.
Proof.
  apply (truncate_bounded_idempotent "3f2a9c41d7e0aa55" 14).
  - lia.
  - apply in_range_small. lia.
Defined.

Lemma ReplaceAll_absent (s old new : string) :
  Str.Contains s old = false -> Str.ReplaceAll s old new = s.
Proof.
  induction s as [|c s IH]; [reflexivity |].
  cbn [Str.Contains]. intros Hc. apply orb_false_iff in Hc as [Hp Hrest].
  rewrite ReplaceAll_other by exact Hp. now rewrite IH.
Qed.

(** X2.  [formatPorts] never panics and never returns more than 25 bytes;
    a non-empty ports text of at most 25 bytes without the "0.0.0.0:"
    prefix comes back unchanged. *)
Theorem formatPorts_bounded (ports : string) :
  exists t, formatPorts ports = Done t /\ Str.len t <= 25 /\
            (ports <> "" -> Str.Contains ports "0.0.0.0:" = false ->
             Str.len ports <= 25 -> t = ports).
Proof.
  rewrite formatPorts_cut. eexists. split; [reflexivity |].
  destruct (String.eqb_spec ports "") as [->|Hne].
  - split; [vm_compute; discriminate | contradiction].
  - split; [apply len_cut_le; lia |].
    intros _ Habsent Hlen. rewrite ReplaceAll_absent by exact Habsent.
    unfold cut. destruct (Z.leb_spec (Str.len ports) 25); [reflexivity | lia].
Qed.

Lemma formatPorts_bounded_witness :
  exists t, formatPorts "80/tcp, 443/tcp" = Done t /\ Str.len t <= 25 /\
            t = "80/tcp, 443/tcp".
Proof.
  destruct (formatPorts_bounded "80/tcp, 443/tcp") as (t & Ht & Hlen & Hsame).
  exists t. split; [exact Ht |]. split; [exact Hlen |].
  apply Hsame.
  - discriminate.
  - reflexivity.
  - vm_compute. discriminate.
Defined.

Lemma widthAt_roomy (cols : list Column) (i : nat) (fallback : Z) :
  roomy cols -> 3 <= fallback -> 3 <= widthAt cols i fallback.
Proof.
  intros Hroomy Hf. unfold widthAt.
  destruct (Z.of_nat (length cols) <? 5); [exact Hf |].
  destruct (cols !! i) as [k|] eqn:Hk; [| exact Hf].
  unfold roomy in Hroomy. rewrite List.Forall_forall in Hroomy.
  apply list_elem_of_lookup_2, list_elem_of_In in Hk.
  now apply Hroomy in Hk.
Qed.

Section Cells.
Context {T : Type} `{!TableWidget T} `{!Strings} `{!Lipgloss}.

Lemma len_portsCell (ports : string) (w : Z) :
  3 <= w -> Str.len (portsCell ports w) <= w.
Proof.
  intros Hw. unfold portsCell. destruct (String.eqb ports "").
  - change (Str.len dash) with 3. exact Hw.
  - pose proof (len_cut_le (Str.ReplaceAll ports "0.0.0.0:" "") (Z.min 25 w)).
    lia.
Qed.

(** X3.  With roomy columns a record projects to a row of exactly five
    cells; the id, name, image and ports cells are no longer (in bytes) than
    the widths of their columns, and the status cell is the status word. *)
Theorem containerToRow_fits (t : T) (c : Container) :
  roomy (Columns t) ->
  exists id name image ports,
    containerToRow t c = Done [id; name; image; formatStatus (State c); ports] /\
    Str.len id <= widthAt (Columns t) 0 14 /\
    Str.len name <= widthAt (Columns t) 1 25 /\
    Str.len image <= widthAt (Columns t) 2 30 /\
    Str.len ports <= widthAt (Columns t) 4 25.
Proof.
  intros Hroomy. rewrite containerToRow_roomy by exact Hroomy.
  unfold rowOf. eexists _, _, _, _. split; [reflexivity |].
  repeat split;
    first [ apply len_cut_le | apply len_portsCell ];
    apply widthAt_roomy; (exact Hroomy || lia).
Qed.

End Cells.

(** ** Filtering, once more *)

Lemma filter_filter_same {A} (keep : A -> bool) (l : list A) :
  List.filter keep (List.filter keep l) = List.filter keep l.
Proof.
  induction l as [|x l IH]; [reflexivity |]. simpl.
  destruct (keep x) eqn:Hx; [| exact IH].
  simpl. now rewrite Hx, IH.
Qed.

Section FilteringMore.
Context `{!Strings}.

(** X4.  Filtering is idempotent, distributes over the concatenation of
    listings, and never returns more records than it was given. *)
Theorem filterContainers_idempotent_app (R R' : list Container) (F : string) :
  filterContainers (filterContainers R F) F = filterContainers R F /\
  filterContainers (R ++ R')%list F
  = (filterContainers R F ++ filterContainers R' F)%list /\
  (length (filterContainers R F) <= length R)%nat.
Proof.
  destruct (String.eqb_spec F "") as [->|HF].
  - rewrite !filterContainers_empty. auto.
  - rewrite !filterContainers_filter by exact HF.
    split; [apply filter_filter_same |].
    split; [apply List.filter_app | apply List.filter_length_le].
Qed.

(** X5.  Only the lower-cased text matters: two non-empty filter texts
    with the same lower-casing select the same records. *)
Theorem filterContainers_case_insensitive (R : list Container) (F F' : string) :
  F <> "" -> F' <> "" -> ToLower F = ToLower F' ->
  filterContainers R F = filterContainers R F'.
Proof.
  intros HF HF' Hlow.
  rewrite !filterContainers_filter by assumption. now rewrite Hlow.
Qed.

End FilteringMore.

(** ** Selection, layout and the displayed rows *)

Ltac frame_table H :=
  match type of H with
  | context [updateTable ?m] =>
      let E := fresh "E" in
      let rows := fresh "rows" in
      destruct (updateTable m) eqn:E; exec_simpl in H; [| discriminate H];
      apply updateTable_frame in E as [rows ->]
  end.

Ltac cases_of_update H :=
  repeat match type of H with
  | context [if ?b then _ else _] => destruct b eqn:?
  | context [let '(_, _) := ?p in _] => destruct p eqn:?
  | context [getSelectedContainer ?m] =>
      let c := fresh "c" in
      destruct (getSelectedContainer m) as [[c|]|] eqn:?; exec_simpl in H
  | context [Str.slice_to ?s ?k] =>
      destruct (Str.slice_to s k) eqn:?; exec_simpl in H
  | context [updateTable ?m] => frame_table H
  | Panic _ = Done _ => discriminate H
  end.

Ltac key_in_browsing Hmode :=
  cbn [Update]; rewrite Hmode;
  repeat match goal with
  | |- context [String.eqb ?a ?b] =>
      let v := eval vm_compute in (String.eqb a b) in
      change (String.eqb a b) with v
  end;
  cbn [orb]; cbv iota.

Lemma tableColumns_five (w : Z) : fiveColumns (tableColumns w).
Proof.
  unfold fiveColumns, tableColumns. cbv zeta. cbn [List.map Width].
  eexists _, _, _. split; [reflexivity |].
  rewrite !max_Zmax. lia.
Qed.

Section Display.
Context {T I : Type} `{!TableWidget T} `{!TextInput I}.
Context `{!Strings} `{!Lipgloss}.

Lemma filterContainers_nil (F : string) : filterContainers [] F = [].
Proof. unfold filterContainers. now destruct (String.eqb F ""). Qed.

(** X6.  [getSelectedContainer] indexes the filtered records with the
    cursor: it returns nothing when the filter leaves no record or the
    cursor is past the last one, panics on a negative cursor when there is
    something to select, and otherwise returns the record at the cursor,
    which is one of the records of the state. *)
Theorem getSelectedContainer_spec (m : @model T I) :
  let filtered := filterContainers (containers m) (Value (filter m)) in
  let cursor := Cursor (table m) in
  (filtered = [] \/ Z.of_nat (length filtered) <= cursor ->
   getSelectedContainer m = Done None) /\
  (filtered <> [] -> cursor < 0 ->
   getSelectedContainer m = Panic IndexRange) /\
  (0 <= cursor < Z.of_nat (length filtered) ->
   exists c, filtered !! Z.to_nat cursor = Some c /\
             getSelectedContainer m = Done (Some c) /\
             In c (containers m)).
Proof.
  cbv zeta. unfold getSelectedContainer.
  set (filtered := filterContainers (containers m) (Value (filter m))).
  assert (Hnil : containers m = [] -> filtered = []).
  { intros E. subst filtered. rewrite E. apply filterContainers_nil. }
  split; [| split].
  - intros Hcase.
    destruct (Z.eqb_spec (Z.of_nat (length (containers m))) 0); [reflexivity |].
    destruct (Z.eqb_spec (Z.of_nat (length filtered)) 0); [reflexivity |].
    destruct Hcase as [E|Hpast].
    + rewrite E in *. cbn in *. lia.
    + destruct (Z.geb_spec (Cursor (table m)) (Z.of_nat (length filtered)));
        [reflexivity | lia].
  - intros Hne Hneg.
    destruct (Z.eqb_spec (Z.of_nat (length (containers m))) 0) as [E|_].
    { destruct (containers m); [now specialize (Hnil eq_refl) | cbn in E; lia]. }
    destruct (Z.eqb_spec (Z.of_nat (length filtered)) 0) as [E|_].
    { destruct filtered; [contradiction | cbn in E; lia]. }
    destruct (Z.geb_spec (Cursor (table m)) (Z.of_nat (length filtered)));
      [lia |].
    destruct (Z.ltb_spec (Cursor (table m)) 0); [reflexivity | lia].
  - intros Hin.
    destruct (Z.eqb_spec (Z.of_nat (length (containers m))) 0) as [E|_].
    { destruct (containers m); [| cbn in E; lia].
      rewrite (Hnil eq_refl) in Hin. cbn in Hin. lia. }
    destruct (Z.eqb_spec (Z.of_nat (length filtered)) 0) as [E|_]; [lia |].
    destruct (Z.geb_spec (Cursor (table m)) (Z.of_nat (length filtered)));
      [lia |].
    destruct (Z.ltb_spec (Cursor (table m)) 0); [lia |].
    destruct (lookup_lt_is_Some_2 filtered (Z.to_nat (Cursor (table m))))
      as [c Hc]; [lia |].
    exists c. rewrite Hc. split; [reflexivity |]. split; [reflexivity |].
    apply list_elem_of_In.
    eapply elem_of_sublist; [| apply filterContainers_sublist].
    eapply list_elem_of_lookup_2. exact Hc.
Qed.

(** A transition keeps the columns and the width, unless it is a resize,
    which installs the columns for the clamped width. *)
Lemma Update_columns (m m' : @model T I) (msg : Msg) (cmd : Cmd) :
  Update m msg = Done (m', cmd) ->
  (Columns (table m') = Columns (table m) /\ width m' = width m) \/
  (exists w h, msg = WindowSizeMsg w h /\ width m' = Z.max 80 w /\
               Columns (table m') = tableColumns (Z.max 80 w)).
Proof.
  intros Hstep. destruct msg as [w h|key|cs|ok text|e|]; cbn [Update] in Hstep.
  - right. exists w, h. split; [reflexivity |].
    rewrite updateTableSize_done in Hstep. exec_simpl in Hstep.
    injection Hstep as <- <-. cbn [width table set_width set_height].
    rewrite Columns_SetRows, Columns_SetHeight, Columns_SetColumns.
    destruct (Z.ltb_spec w 80).
    + replace (Z.max 80 w) with 80 by lia. auto.
    + replace (Z.max 80 w) with w by lia. auto.
  - left. cases_of_update Hstep; injection Hstep as <- <-;
      cbn [table width set_table set_filter set_filtering set_statusMsg
           set_loading];
      rewrite ?Columns_SetRows; try (split; reflexivity).
    match goal with
    | E : table_Update ?k ?t = (?t', ?c') |- _ =>
        change t' with (fst (t', c')); rewrite <- E, Columns_Update
    end.
    split; reflexivity.
  - left. cases_of_update Hstep; injection Hstep as <- <-; cbn;
      rewrite ?Columns_SetRows; split; reflexivity.
  - left. injection Hstep as <- <-. split; reflexivity.
  - left. injection Hstep as <- <-. split; reflexivity.
  - left. injection Hstep as <- <-. split; reflexivity.
Qed.

(** X9.  In every state the program can be in, the terminal width on record
    is at least 80 and the table has its five columns: id 14 and status 16
    wide, name, image and ports at least 20, 25 and 20 wide. *)
Theorem Reachable_layout (m : @model T I) :
  Reachable m -> 80 <= width m /\ fiveColumns (Columns (table m)).
Proof.
  induction 1 as [|m msg m' cmd _ [IHw IHc] Hstep].
  - split; [cbn; lia |]. cbn [table initialModel]. rewrite Columns_New.
    exists 25, 30, 25. split; [reflexivity | lia].
  - destruct (Update_columns _ _ _ _ Hstep)
      as [[Hcols Hwidth]|(w & h & _ & Hwidth & Hcols)].
    + now rewrite Hcols, Hwidth.
    + rewrite Hcols, Hwidth. split; [lia | apply tableColumns_five].
Qed.

End Display.

Ltac cases_of_update_exact Hroomy H :=
  repeat match type of H with
  | context [updateTable ?m] =>
      rewrite (updateTable_roomy m) in H by (cbn; exact Hroomy);
      exec_simpl in H
  | context [if ?b then _ else _] => destruct b eqn:?
  | context [let '(_, _) := ?p in _] => destruct p eqn:?
  | context [getSelectedContainer ?m] =>
      let c := fresh "c" in
      destruct (getSelectedContainer m) as [[c|]|] eqn:?; exec_simpl in H
  | context [Str.slice_to ?s ?k] =>
      destruct (Str.slice_to s k) eqn:?; exec_simpl in H
  | Panic _ = Done _ => discriminate H
  end.

Section Synchrony.
Context {T I : Type} `{!TableWidget T} `{!TextInput I}.
Context `{!TableLaws T} `{!InputLaws I}.
Context `{!Strings} `{!Lipgloss}.

Lemma Update_rowsInSync (m m' : @model T I) (msg : Msg) (cmd : Cmd) :
  roomy (Columns (table m)) -> rowsInSync m ->
  Update m msg = Done (m', cmd) -> rowsInSync m'.
Proof.
  intros Hroomy Hsync Hstep. unfold rowsInSync in *.
  destruct msg as [w h|key|cs|ok text|e|]; cbn [Update] in Hstep.
  - rewrite updateTableSize_done in Hstep. exec_simpl in Hstep.
    injection Hstep as <- <-. cbn [table containers filter set_width set_height].
    now rewrite Rows_SetRows, Columns_SetRows, Columns_SetHeight,
      Columns_SetColumns.
  - cases_of_update_exact Hroomy Hstep; injection Hstep as <- <-;
      cbn [table containers filter set_table set_filter set_filtering
           set_statusMsg set_loading];
      rewrite ?Rows_SetRows, ?Columns_SetRows; try reflexivity;
      try exact Hsync.
    + now rewrite Value_Blur.
    + match goal with
      | E : Focus ?f = (?f', ?c') |- _ =>
          change f' with (fst (f', c')); rewrite <- E, Value_Focus
      end.
      exact Hsync.
    + match goal with
      | E : table_Update ?k ?t = (?t', ?c') |- _ =>
          change t' with (fst (t', c'));
          rewrite <- E, Rows_Update, Columns_Update
      end.
      exact Hsync.
  - cases_of_update_exact Hroomy Hstep; injection Hstep as <- <-; cbn;
      now rewrite Rows_SetRows, Columns_SetRows.
  - injection Hstep as <- <-. exact Hsync.
  - injection Hstep as <- <-. exact Hsync.
  - injection Hstep as <- <-. exact Hsync.
Qed.

Lemma Reachable_rowsInSync (m : @model T I) : Reachable m -> rowsInSync m.
Proof.
  induction 1 as [|m msg m' cmd Hreach IH Hstep].
  - unfold rowsInSync. cbn [table containers filter initialModel].
    rewrite Rows_New, Value_New. reflexivity.
  - eapply Update_rowsInSync; [| exact IH | exact Hstep].
    now apply Reachable_roomy.
Qed.

(** X7.  What the table shows never goes stale: in every state the program
    can be in, the rows of the table are the projection of the records that
    pass the current filter text, in their order; so there are never more
    rows than records and every row has five cells. *)
Theorem rows_follow_records (m : @model T I) :
  Reachable m ->
  Rows (table m)
  = List.map (rowOf (Columns (table m)))
             (filterContainers (containers m) (Value (filter m))) /\
  (length (Rows (table m)) <= length (containers m))%nat /\
  Forall (fun row : Row => length row = 5%nat) (Rows (table m)).
Proof.
  intros Hreach. pose proof (Reachable_rowsInSync m Hreach) as Hsync.
  unfold rowsInSync, projection in Hsync. rewrite Hsync.
  split; [reflexivity |]. split.
  - rewrite List.length_map. apply sublist_length, filterContainers_sublist.
  - apply List.Forall_forall. intros row Hin.
    apply List.in_map_iff in Hin as (c & <- & _). reflexivity.
Qed.

(** X8.  The action keys act on what the user sees: a selected record is
    the one whose row the table shows at the cursor. *)
Theorem selected_record_is_displayed (m : @model T I) (c : Container) :
  Reachable m -> getSelectedContainer m = Done (Some c) ->
  0 <= Cursor (table m) /\
  Rows (table m) !! Z.to_nat (Cursor (table m))
  = Some (rowOf (Columns (table m)) c).
Proof.
  intros Hreach Hsel.
  pose proof (Reachable_rowsInSync m Hreach) as Hsync.
  unfold rowsInSync, projection in Hsync. rewrite Hsync.
  unfold getSelectedContainer in Hsel.
  destruct (Z.of_nat (length (containers m)) =? 0); [discriminate |].
  destruct (Z.of_nat (length (filterContainers _ _)) =? 0); [discriminate |].
  destruct (Cursor (table m) >=? _); [discriminate |].
  destruct (Z.ltb_spec (Cursor (table m)) 0); [discriminate |].
  split; [assumption |].
  destruct (filterContainers _ _ !! Z.to_nat (Cursor (table m))) as [c'|] eqn:E;
    [| discriminate].
  injection Hsel as ->.
  rewrite list_lookup_fmap. change (List.map ?f ?l) with (f <$> l).
  now rewrite E.
Qed.

(** X10.  No code of main.go panics on a resize to a size a terminal can
    report, whatever the state (the calls into the table widget are taken
    to return, as the interface has them): the width on record is the new
    width clamped to at least 80, the columns are those for the clamped
    width (so every width below 80 gives the layout of width 80), the rows
    are reprojected, and nothing else changes. *)
Theorem resize_total (m : @model T I) (w h : Z) :
  w <= maxWindow -> h <= maxWindow ->
  exists m',
    Update m (WindowSizeMsg w h) = Done (m', CmdNil) /\
    width m' = Z.max 80 w /\ height m' = h /\
    Columns (table m') = tableColumns (Z.max 80 w) /\
    rowsInSync m' /\
    containers m' = containers m /\ filter m' = filter m /\
    filtering m' = filtering m /\ err m' = err m /\
    statusMsg m' = statusMsg m /\ loading m' = loading m.
Proof.
  intros _ _.
  eexists. cbn [Update]. rewrite updateTableSize_done. exec_simpl.
  split; [reflexivity |].
  cbn [width height table containers filter filtering err statusMsg loading
       set_width set_height].
  assert (E : (if w <? 80 then 80 else w) = Z.max 80 w)
    by (destruct (Z.ltb_spec w 80); lia).
  rewrite E. split; [reflexivity |]. split; [reflexivity |].
  rewrite Columns_SetRows, Columns_SetHeight, Columns_SetColumns.
  split; [reflexivity |].
  split; [| repeat split; reflexivity].
  unfold rowsInSync. cbn [table containers filter].
  now rewrite Rows_SetRows, Columns_SetRows, Columns_SetHeight,
    Columns_SetColumns.
Qed.

End Synchrony.

(** ** Keys and messages *)

Section Keys.
Context {T I : Type} `{!TableWidget T} `{!TextInput I}.
Context `{!TableLaws T} `{!InputLaws I}.
Context `{!Strings} `{!Lipgloss}.

(** X11.  [x] mirrors [s]: in browsing mode with a record selected, a
    record that is not running only gets the status "Container is not
    running"; a running record whose ID has at least 12 bytes gets
    "Stopping container <first 12 bytes>...", [loading], and the stop
    command batched with the delayed refresh. *)
Theorem Update_key_x (m : @model T I) (c : Container) :
  filtering m = false ->
  getSelectedContainer m = Done (Some c) ->
  (State c <> "running" ->
   Update m (KeyMsg "x") =
   Done ({| table := table m; containers := containers m; filter := filter m;
            filtering := filtering m; err := err m; width := width m;
            height := height m;
            statusMsg := "Container is not running";
            loading := loading m |}, CmdNil)) /\
  (State c = "running" -> 12 <= Str.len (ID c) ->
   Update m (KeyMsg "x") =
   Done ({| table := table m; containers := containers m; filter := filter m;
            filtering := filtering m; err := err m; width := width m;
            height := height m;
            statusMsg := "Stopping container " ++ Str.take 12 (ID c) ++ "...";
            loading := true |},
         Batch [StopContainer (ID c); Tick 2 LoadContainers])).
Proof.
  intros Hmode Hsel. split.
  - intros Hrun. key_in_browsing Hmode. rewrite Hsel. exec_simpl.
    destruct (String.eqb_spec (State c) "running"); [contradiction |].
    cbn [negb]. unfold set_statusMsg. now rewrite Hmode.
  - intros Hrun Hlen. key_in_browsing Hmode. rewrite Hsel. exec_simpl.
    rewrite Hrun. change (String.eqb "running" "running") with true.
    cbn [negb]. cbv iota. rewrite slice_to_12 by assumption. exec_simpl.
    unfold set_loading, set_statusMsg, sprintf1, refreshLater. cbn.
    now rewrite Hmode.
Qed.

(** X12.  [d] asks no question about the state of the record: in browsing
    mode, with a selected record whose ID has at least 12 bytes, it sets
    "Deleting container <first 12 bytes>...", [loading], and dispatches the
    delete command batched with the delayed refresh. *)
Theorem Update_key_d (m : @model T I) (c : Container) :
  filtering m = false ->
  getSelectedContainer m = Done (Some c) ->
  12 <= Str.len (ID c) ->
  Update m (KeyMsg "d") =
  Done ({| table := table m; containers := containers m; filter := filter m;
           filtering := filtering m; err := err m; width := width m;
           height := height m;
           statusMsg := "Deleting container " ++ Str.take 12 (ID c) ++ "...";
           loading := true |},
        Batch [DeleteContainer (ID c); Tick 2 LoadContainers]).
Proof.
  intros Hmode Hsel Hlen. key_in_browsing Hmode. rewrite Hsel. exec_simpl.
  rewrite slice_to_12 by assumption. exec_simpl.
  unfold set_loading, set_statusMsg, sprintf1, refreshLater. cbn.
  now rewrite Hmode.
Qed.

(** X13.  Without a selection the action keys do nothing: when the filter
    leaves no record (in particular when there are no records) or the
    cursor is past the last row, [s], [x] and [d] in browsing mode return
    the state unchanged and dispatch no command. *)
Theorem action_keys_without_selection (m : @model T I) (key : string) :
  filtering m = false ->
  filterContainers (containers m) (Value (filter m)) = [] \/
  Z.of_nat (length (filterContainers (containers m) (Value (filter m))))
  <= Cursor (table m) ->
  In key ["s"; "x"; "d"] ->
  Update m (KeyMsg key) = Done (m, CmdNil).
Proof.
  intros Hmode Hcase Hkey.
  assert (Hsel : getSelectedContainer m = Done None).
  { unfold getSelectedContainer.
    destruct (Z.eqb_spec (Z.of_nat (length (containers m))) 0); [reflexivity |].
    destruct (Z.eqb_spec
                (Z.of_nat (length (filterContainers (containers m)
                                                    (Value (filter m))))) 0)
      as [|Hlen]; [reflexivity |].
    destruct Hcase as [E|Hpast]; [rewrite E in Hlen; cbn in Hlen; lia |].
    destruct (Z.geb_spec (Cursor (table m))
                (Z.of_nat (length (filterContainers (containers m)
                                                    (Value (filter m))))));
      [reflexivity | lia]. }
  destruct Hkey as [<-|[<-|[<-|[]]]]; key_in_browsing Hmode;
    rewrite Hsel; reflexivity.
Qed.

(** X14.  A manual refresh and its answer: [r] in browsing mode sets the
    status "Refreshing containers...", sets [loading] and dispatches the
    listing; when the listing arrives, the records are replaced, the rows
    follow, and both the status and [loading] are cleared. *)
Theorem refresh_round_trip (m : @model T I) (cs : list Container) :
  Reachable m -> filtering m = false ->
  exists m1 m2,
    Update m (KeyMsg "r") = Done (m1, LoadContainers) /\
    statusMsg m1 = "Refreshing containers..." /\ loading m1 = true /\
    Update m1 (containersLoaded cs) = Done (m2, CmdNil) /\
    containers m2 = cs /\ statusMsg m2 = "" /\ loading m2 = false /\
    Rows (table m2)
    = projection (Columns (table m)) cs (Value (filter m)).
Proof.
  intros Hreach Hmode. apply Reachable_roomy in Hreach.
  eexists _, _. split; [key_in_browsing Hmode; reflexivity |].
  split; [reflexivity |]. split; [reflexivity |].
  cbn [Update]. rewrite updateTable_roomy by (cbn; exact Hreach). exec_simpl.
  cbn [statusMsg set_loading set_table set_containers set_statusMsg].
  change (String.eqb "Refreshing containers..." "Refreshing containers...")
    with true. cbv iota.
  split; [reflexivity |].
  cbn. rewrite Rows_SetRows. repeat split; reflexivity.
Qed.

(** X15.  The result of an action is shown whatever its success flag, and
    the refresh that follows an action does not wipe it: after an
    [actionResult] the status is its message and [loading] is off, and a
    listing that arrives next leaves that message in place (unless the
    message is the refresh placeholder itself). *)
Theorem action_message_survives_refresh
  (m : @model T I) (ok : bool) (text : string) (cs : list Container) :
  Reachable m -> text <> "Refreshing containers..." ->
  exists m1 m2,
    Update m (actionResult ok text) = Done (m1, CmdNil) /\
    statusMsg m1 = text /\ loading m1 = false /\
    containers m1 = containers m /\
    Update m1 (containersLoaded cs) = Done (m2, CmdNil) /\
    statusMsg m2 = text /\ loading m2 = false /\ containers m2 = cs.
Proof.
  intros Hreach Htext. apply Reachable_roomy in Hreach.
  eexists _, _. split; [reflexivity |].
  split; [reflexivity |]. split; [reflexivity |]. split; [reflexivity |].
  cbn [Update]. rewrite updateTable_roomy by (cbn; exact Hreach). exec_simpl.
  cbn [statusMsg set_loading set_table set_containers set_statusMsg].
  destruct (String.eqb_spec text "Refreshing containers...");
    [contradiction |].
  repeat split; reflexivity.
Qed.

(** X16.  The filter is live and the action keys are off while it is being
    edited: in filtering mode every key other than ctrl+c, esc and enter
    (so also [q], [r], [s], [x], [d]) goes to the text input, the rows are
    reprojected under the new text, the command is the input's own, and the
    records, status, [loading] and mode stay as they are. *)
Theorem typing_in_filter_mode (m : @model T I) (key : string) :
  Reachable m -> filtering m = true ->
  ~ In key ["ctrl+c"; "esc"; "enter"] ->
  let f := fst (input_Update key (filter m)) in
  Update m (KeyMsg key) =
  Done ({| table := SetRows (projection (Columns (table m)) (containers m)
                                        (Value f)) (table m);
           containers := containers m; filter := f;
           filtering := true; err := err m; width := width m;
           height := height m; statusMsg := statusMsg m;
           loading := loading m |},
        snd (input_Update key (filter m))).
Proof.
  intros Hreach Hmode Hkey. cbv zeta. apply Reachable_roomy in Hreach.
  cbn [Update]. rewrite Hmode.
  destruct (String.eqb_spec key "ctrl+c") as [->|_];
    [exfalso; apply Hkey; simpl; tauto |].
  destruct (String.eqb_spec key "esc") as [->|_];
    [exfalso; apply Hkey; simpl; tauto |].
  destruct (String.eqb_spec key "enter") as [->|_];
    [exfalso; apply Hkey; simpl; tauto |].
  destruct (input_Update key (filter m)) as [f cmd]. cbn [fst snd].
  rewrite updateTable_roomy by (cbn; exact Hreach). exec_simpl.
  unfold set_table, set_filter. cbn. now rewrite Hmode.
Qed.

(** X17.  Leaving the filter: esc and enter both switch filtering mode
    off, keep the filter text and the records, dispatch nothing, and leave
    the same rows on display. *)
Theorem leaving_filter_mode (m : @model T I) (key : string) :
  Reachable m -> filtering m = true -> In key ["esc"; "enter"] ->
  exists m',
    Update m (KeyMsg key) = Done (m', CmdNil) /\
    filtering m' = false /\
    Value (filter m') = Value (filter m) /\
    containers m' = containers m /\
    Rows (table m') = Rows (table m) /\
    statusMsg m' = statusMsg m /\ loading m' = loading m.
Proof.
  intros Hreach Hmode Hkey.
  pose proof (Reachable_rowsInSync m Hreach) as Hsync.
  apply Reachable_roomy in Hreach.
  destruct Hkey as [<-|[<-|[]]]; cbn [Update]; rewrite Hmode.
  - eexists. split; [reflexivity |]. cbn.
    rewrite Value_Blur. repeat split; reflexivity.
  - change (String.eqb "enter" "ctrl+c") with false.
    change (String.eqb "enter" "esc") with false.
    change (String.eqb "enter" "enter") with true. cbv iota.
    rewrite updateTable_roomy by (cbn; exact Hreach). exec_simpl.
    eexists. split; [reflexivity |]. cbn.
    rewrite Rows_SetRows, Value_Blur.
    repeat split; try reflexivity. symmetry. exact Hsync.
Qed.

(** X18.  [loading] is switched on only together with a dispatched command:
    a transition that turns it on returns either the listing command or a
    batch of one action on a record of the state and the delayed refresh. *)
Theorem loading_only_with_dispatch (m m' : @model T I) (msg : Msg) (cmd : Cmd) :
  Update m msg = Done (m', cmd) ->
  loading m = false -> loading m' = true ->
  cmd = LoadContainers \/
  exists c, In c (containers m) /\
    (cmd = Batch [StartContainer (ID c); Tick 2 LoadContainers] \/
     cmd = Batch [StopContainer (ID c); Tick 2 LoadContainers] \/
     cmd = Batch [DeleteContainer (ID c); Tick 2 LoadContainers]).
Proof.
  intros Hstep Hoff Hon.
  assert (Hmem : forall c, getSelectedContainer m = Done (Some c) ->
                           In c (containers m)).
  { intros c Hsel. unfold getSelectedContainer in Hsel.
    destruct (Z.of_nat (length (containers m)) =? 0); [discriminate |].
    destruct (Z.of_nat (length (filterContainers _ _)) =? 0); [discriminate |].
    destruct (Cursor (table m) >=? _); [discriminate |].
    destruct (Cursor (table m) <? 0); [discriminate |].
    destruct (filterContainers _ _ !! Z.to_nat (Cursor (table m)))
      as [c'|] eqn:E; [| discriminate].
    injection Hsel as ->. apply list_elem_of_In.
    eapply elem_of_sublist; [| apply filterContainers_sublist].
    eapply list_elem_of_lookup_2. exact E. }
  destruct msg as [w h|key|cs|ok text|e|]; cbn [Update] in Hstep.
  - rewrite updateTableSize_done in Hstep. exec_simpl in Hstep.
    injection Hstep as <- <-. cbn in Hon. congruence.
  - cases_of_update Hstep; injection Hstep as <- <-; cbn in Hon;
      try congruence; try (now left);
      right;
      match goal with
      | Hm : forall c0, Done (Some ?c) = _ -> _ |- _ =>
          exists c; split; [apply Hm; reflexivity | unfold refreshLater; auto]
      end.
  - cases_of_update Hstep; injection Hstep as <- <-; cbn in Hon; congruence.
  - injection Hstep as <- <-. cbn in Hon. congruence.
  - injection Hstep as <- <-. cbn in Hon. congruence.
  - injection Hstep as <- <-. congruence.
Qed.

(** X19.  Actions never edit the records: the only transition that changes
    the records of the state is the arrival of a listing, which replaces
    them wholesale. *)
Theorem records_change_only_on_listing
  (m m' : @model T I) (msg : Msg) (cmd : Cmd) :
  Update m msg = Done (m', cmd) ->
  containers m' = containers m \/
  exists cs, msg = containersLoaded cs /\ containers m' = cs.
Proof.
  intros Hstep.
  destruct msg as [w h|key|cs|ok text|e|]; cbn [Update] in Hstep.
  - rewrite updateTableSize_done in Hstep. exec_simpl in Hstep.
    injection Hstep as <- <-. now left.
  - cases_of_update Hstep; injection Hstep as <- <-; now left.
  - right. exists cs. split; [reflexivity |].
    cases_of_update Hstep; injection Hstep as <- <-; reflexivity.
  - injection Hstep as <- <-. now left.
  - injection Hstep as <- <-. now left.
  - injection Hstep as <- <-. now left.
Qed.

(** X24.  The action keys are the only place where the code of main.go can
    panic: in every state the program can be in, every message other than
    [s], [x] or [d] pressed in browsing mode is handled without a panic,
    for window sizes a terminal can report (the calls into the widgets are
    taken to return, as the interfaces have them). *)
Theorem Update_panics_only_on_action_keys (m : @model T I) (msg : Msg) :
  Reachable m ->
  (forall key, msg = KeyMsg key -> filtering m = false ->
               ~ In key ["s"; "x"; "d"]) ->
  (forall w h, msg = WindowSizeMsg w h -> w <= maxWindow /\ h <= maxWindow) ->
  exists m' cmd, Update m msg = Done (m', cmd).
Proof.
  intros Hreach Hkey _. apply Reachable_roomy in Hreach.
  destruct msg as [w h|key|cs|ok text|e|]; cbn [Update].
  - rewrite updateTableSize_done. exec_simpl. eauto.
  - destruct (filtering m) eqn:Hmode.
    + destruct (String.eqb key "ctrl+c"); [eauto |].
      destruct (String.eqb key "esc"); [eauto |].
      destruct (String.eqb key "enter").
      * rewrite updateTable_roomy by (cbn; exact Hreach). exec_simpl. eauto.
      * destruct (input_Update key (filter m)) as [f cmd]. cbv iota.
        rewrite updateTable_roomy by (cbn; exact Hreach). exec_simpl. eauto.
    + specialize (Hkey key eq_refl eq_refl).
      destruct (String.eqb key "ctrl+c" || String.eqb key "q"); [eauto |].
      destruct (String.eqb key "/").
      { destruct (Focus (filter (set_filtering true m))). cbv iota. eauto. }
      destruct (String.eqb key "r"); [eauto |].
      destruct (String.eqb_spec key "s") as [->|_];
        [exfalso; apply Hkey; simpl; tauto |].
      destruct (String.eqb_spec key "x") as [->|_];
        [exfalso; apply Hkey; simpl; tauto |].
      destruct (String.eqb_spec key "d") as [->|_];
        [exfalso; apply Hkey; simpl; tauto |].
      destruct (table_Update key (table m)). cbv iota. eauto.
  - rewrite updateTable_roomy by (cbn; exact Hreach). exec_simpl. eauto.
  - eauto.
  - eauto.
  - eauto.
Qed.

End Keys.

(** ** Outcomes on screen *)

Section Outcomes.
Context {T I : Type} `{!TableWidget T} `{!TextInput I}.
Context `{!TableView T} `{!InputView I}.
Context `{!Strings} `{!Lipgloss} `{!LipglossPadding} `{!Json}.

(** X20.  A listing that cannot be obtained ends the program: the message
    [loadContainers] builds from a failed [docker ps] makes [Update] record
    the error, clear [loading] and return the quit command, and the view of
    that state is the error line and nothing else. *)
Theorem failed_listing_ends_program (m : @model T I) (e : error) :
  exists m',
    Update m (loadContainers (Failed e)) = Done (m', Quit) /\
    err m' = Some e /\ loading m' = false /\
    containers m' = containers m /\
    View m' = "Error: " ++ e ++ "
".
Proof.
  eexists. split; [reflexivity |]. repeat split; reflexivity.
Qed.

Lemma statusBlock_success (msg : string) :
  msg <> "" -> Str.Contains msg "successfully" = true ->
  statusBlock msg = Render successStyle ("✓ " ++ msg) ++ "

".
Proof.
  intros Hne Hc. unfold statusBlock.
  destruct (String.eqb_spec msg ""); [contradiction |].
  cbn [negb]. now rewrite Hc.
Qed.

(** X21.  How the outcome of an action reaches the screen.  A successful
    start, stop or delete of a record whose ID has at least 12 bytes yields
    a message naming the first 12 bytes of the ID, and the status block
    shows it in the success style.  A failure yields "Failed to ...: "
    followed by the error text, shown in the error style, unless the error
    text itself contains "successfully", in which case it is shown in the
    success style: the style follows the words, not the success flag. *)
Theorem action_outcome_on_screen (id : string) (e : error) :
  (12 <= Str.len id ->
   let shown verb :=
     "Container " ++ Str.take 12 id ++ " " ++ verb ++ " successfully" in
   startContainer id None = Done (actionResult true (shown "started")) /\
   stopContainer id None = Done (actionResult true (shown "stopped")) /\
   (forall stop,
      deleteContainer id stop None = Done (actionResult true (shown "deleted"))) /\
   (forall verb,
      statusBlock (shown verb) = Render successStyle ("✓ " ++ shown verb) ++ "

")) /\
  (let failed verb := "Failed to " ++ verb ++ " container: " ++ e in
   startContainer id (Some e) = Done (actionResult false (failed "start")) /\
   stopContainer id (Some e) = Done (actionResult false (failed "stop")) /\
   (forall stop,
      deleteContainer id stop (Some e)
      = Done (actionResult false (failed "delete"))) /\
   (forall verb, In verb ["start"; "stop"; "delete"] ->
      statusBlock (failed verb)
      = (if Str.Contains e "successfully"
         then Render successStyle ("✓ " ++ failed verb)
         else Render errorStyle ("✗ " ++ failed verb)) ++ "

")).
Proof.
  split.
  - intros Hlen. cbv zeta.
    unfold startContainer, stopContainer, deleteContainer.
    rewrite slice_to_12 by exact Hlen. exec_simpl.
    split; [reflexivity |]. split; [reflexivity |]. split; [reflexivity |].
    intros verb. apply statusBlock_success; [discriminate |].
    change ("Container " ++ Str.take 12 id ++ " " ++ verb ++ " successfully")
      with ("Container " ++ Str.take 12 id ++ " " ++ verb ++ " " ++ "successfully").
    rewrite <- (str_app_assoc verb " " "successfully").
    change (" " ++ (verb ++ " ") ++ "successfully")
      with ((" " ++ verb ++ " ") ++ "successfully").
    rewrite <- (str_app_assoc (Str.take 12 id)).
    rewrite <- (str_app_assoc "Container ").
    apply Contains_spec. exists ("Container " ++ Str.take 12 id ++ " " ++ verb ++ " "), "".
    now rewrite str_app_empty_r.
  - cbv zeta. split; [reflexivity |]. split; [reflexivity |].
    split; [reflexivity |].
    intros verb Hverb. unfold statusBlock.
    destruct Hverb as [<-|[<-|[<-|[]]]]; cbn;
      destruct (Str.Contains e "successfully"); reflexivity.
Qed.

End Outcomes.

(** ** Timestamps *)

Section Timestamps.
Context `{!Time}.

(** X22.  [formatTime] panics exactly on a non-empty timestamp that does
    not parse and is shorter than 10 bytes.  The empty timestamp gives the
    dash, an unparseable one of 10 bytes or more its first 10 bytes, and a
    parseable one a number followed by the unit: minutes below one hour
    (also for a timestamp in the future), hours below one day, days from
    there on. *)
Theorem formatTime_edges (created : string) :
  ((exists t, formatTime created = Done t) <->
   ~ (created <> "" /\ ElapsedSince created = None /\ Str.len created < 10)) /\
  (created = "" -> formatTime created = Done dash) /\
  (created <> "" -> ElapsedSince created = None -> 10 <= Str.len created ->
   formatTime created = Done (Str.take 10 created)) /\
  (forall d, created <> "" -> ElapsedSince created = Some d ->
     formatTime created =
     Done (if d <? Hour then itoa (MinutesOf d) ++ "m"
           else if d <? 24 * Hour then itoa (HoursOf d) ++ "h"
           else itoa (DaysOf d) ++ "d")).
Proof.
  assert (Hparsed : forall d, created <> "" -> ElapsedSince created = Some d ->
     formatTime created =
     Done (if d <? Hour then itoa (MinutesOf d) ++ "m"
           else if d <? 24 * Hour then itoa (HoursOf d) ++ "h"
           else itoa (DaysOf d) ++ "d")).
  { intros d Hne Hd. unfold formatTime.
    destruct (String.eqb_spec created ""); [contradiction |].
    rewrite Hd. destruct (d <? Hour); [reflexivity |].
    destruct (d <? 24 * Hour); reflexivity. }
  assert (Hlong : created <> "" -> ElapsedSince created = None ->
                  10 <= Str.len created ->
                  formatTime created = Done (Str.take 10 created)).
  { intros Hne Hd Hlen. unfold formatTime, Str.slice_to.
    destruct (String.eqb_spec created ""); [contradiction |].
    rewrite Hd. destruct (Z.leb_spec 10 (Str.len created)); [reflexivity | lia]. }
  split; [| split; [intros ->; reflexivity | split; assumption]].
  split.
  - intros [t Ht] (Hne & Hd & Hshort).
    unfold formatTime, Str.slice_to in Ht.
    destruct (String.eqb_spec created ""); [contradiction |].
    rewrite Hd in Ht.
    destruct (Z.leb_spec 10 (Str.len created)); [lia | discriminate Ht].
  - intros Hok. destruct (String.eqb_spec created "") as [->|Hne].
    + now exists dash.
    + destruct (ElapsedSince created) as [d|] eqn:Hd.
      * eexists. now apply Hparsed.
      * destruct (Z_lt_ge_dec (Str.len created) 10) as [Hshort|Hlen].
        -- exfalso. apply Hok. auto.
        -- eexists. apply Hlong; [assumption | reflexivity | lia].
Qed.

End Timestamps.

(** ** White space around a listing *)

Section TrimMore.
Import Str.

Lemma unambiguousb_spec (runes : list string) :
  unambiguousb runes = true -> unambiguous runes.
Proof.
  unfold unambiguousb, unambiguous. intros Hb r r' Hr Hr' Hp.
  rewrite forallb_forall in Hb. specialize (Hb r Hr).
  rewrite forallb_forall in Hb. specialize (Hb r' Hr').
  apply orb_true_iff in Hp. rewrite Hp in Hb. now apply String.eqb_eq.
Qed.

Lemma space_runes_unambiguous : unambiguous space_runes.
Proof. apply unambiguousb_spec. vm_compute. reflexivity. Qed.

Lemma rev_space_runes_unambiguous : unambiguous (List.map rev space_runes).
Proof. apply unambiguousb_spec. vm_compute. reflexivity. Qed.

Lemma HasPrefix_app_cases (r x r' : string) :
  HasPrefix (r ++ x) r' = true ->
  HasPrefix r r' = true \/ HasPrefix r' r = true.
Proof.
  revert r; induction r' as [|a r' IH]; intros r; [now left |].
  destruct r as [|c r]; [now right |].
  cbn [append HasPrefix]. intros Hp.
  apply andb_true_iff in Hp as [Hc Hrest].
  apply Ascii.eqb_eq in Hc as ->.
  rewrite Ascii.eqb_refl. cbn [andb]. now apply IH in Hrest.
Qed.

(** Stripping a string that starts with a rune removes that rune. *)
Lemma strip_rune_leading (runes : list string) (r x : string) :
  unambiguous runes -> In r runes -> strip_rune runes (r ++ x) = Some x.
Proof.
  intros Hun Hr.
  assert (Hgen : forall l, incl l runes -> In r l ->
                           strip_rune l (r ++ x) = Some x).
  { induction l as [|r0 l IH]; intros Hincl Hin; [destruct Hin |].
    cbn [strip_rune]. destruct (HasPrefix (r ++ x) r0) eqn:Hp.
    - apply HasPrefix_app_cases in Hp.
      assert (r = r0) as <-.
      { apply Hun; [exact Hr | apply Hincl; now left | exact Hp]. }
      now rewrite str_drop_app_length.
    - destruct Hin as [->|Hin].
      + rewrite HasPrefix_app in Hp. discriminate Hp.
      + apply IH; [| exact Hin]. intros y Hy. apply Hincl. now right. }
  apply Hgen; [apply incl_refl | exact Hr].
Qed.

Lemma length_concat_nonempty (runes : list string) (r : string) (rest x : string) :
  r <> "" -> (String.length x < String.length (r ++ x))%nat.
Proof. intros Hne. rewrite str_length_app. destruct r; [contradiction | simpl; lia]. Qed.

(** The result of trimming is determined: if [s] is a run of runes followed
    by a string that starts with no rune, trimming returns that string. *)
Lemma trim_left_fuel_unique (runes rs : list string) (t : string) :
  unambiguous runes -> Forall (fun r => r <> "") runes ->
  Forall (fun r => In r runes) rs ->
  strip_rune runes t = None ->
  forall fuel, (String.length (concat rs ++ t) <= fuel)%nat ->
               trim_left_fuel fuel runes (concat rs ++ t) = t.
Proof.
  intros Hun Hne Hrs Ht. induction Hrs as [|r rs Hr _ IH]; intros fuel Hfuel.
  - cbn [concat append]. destruct fuel; cbn [trim_left_fuel]; [reflexivity |].
    now rewrite Ht.
  - cbn [concat]. rewrite str_app_assoc.
    assert (Hr' : r <> "").
    { rewrite List.Forall_forall in Hne. now apply Hne. }
    cbn [concat] in Hfuel. rewrite str_app_assoc in Hfuel.
    pose proof (length_concat_nonempty runes r "" (concat rs ++ t) Hr') as Hlt.
    destruct fuel as [|fuel]; [lia |].
    cbn [trim_left_fuel]. rewrite strip_rune_leading by assumption.
    apply IH. lia.
Qed.

Lemma Spaces_app (a b : string) : Spaces a -> Spaces b -> Spaces (a ++ b).
Proof.
  intros (ra & Ha & ->) (rb & Hb & ->). exists (ra ++ rb)%list.
  split; [now apply Forall_app | symmetry; apply str_concat_app].
Qed.

(** Leading white space does not matter to [TrimLeft]. *)
Lemma TrimLeft_leading (pre s : string) :
  Spaces pre -> TrimLeft (pre ++ s) = TrimLeft s.
Proof.
  intros (rp & Hrp & ->).
  destruct (trim_left_fuel_prefix (String.length s) space_runes s)
    as (rs & Hrs & Hs).
  fold (TrimLeft s) in Hs.
  assert (Hdone : strip_rune space_runes (TrimLeft s) = None).
  { unfold TrimLeft.
    apply trim_left_fuel_done; [apply space_runes_nonempty | lia]. }
  unfold TrimLeft at 1. rewrite Hs at 1 2.
  rewrite <- str_app_assoc, <- str_concat_app.
  apply trim_left_fuel_unique; try assumption.
  - apply space_runes_unambiguous.
  - apply space_runes_nonempty.
  - now apply Forall_app.
  - lia.
Qed.

(** A run of white space trims to nothing. *)
Lemma TrimLeft_Spaces (s : string) : Spaces s -> TrimLeft s = "".
Proof.
  intros Hs. rewrite <- (str_app_empty_r s).
  now rewrite TrimLeft_leading.
Qed.

Lemma rev_concat (ws : list string) :
  rev (concat ws) = concat (List.map rev (List.rev ws)).
Proof.
  induction ws as [|w ws IH]; [reflexivity |].
  cbn [concat List.rev]. rewrite str_rev_app, IH, List.map_app, str_concat_app.
  cbn [List.map concat]. now rewrite str_app_empty_r.
Qed.

(** Trailing white space does not matter to [TrimRight]. *)
Lemma TrimRight_trailing (s post : string) :
  Spaces post -> TrimRight (s ++ post) = TrimRight s.
Proof.
  intros (rp & Hrp & ->). unfold TrimRight. f_equal.
  set (runes := List.map rev space_runes).
  destruct (trim_left_fuel_prefix (String.length s) runes (rev s))
    as (rs & Hrs & Hs).
  set (t := trim_left_fuel (String.length s) runes (rev s)) in *.
  assert (Hdone : strip_rune runes t = None).
  { subst t. apply trim_left_fuel_done; [apply rev_space_runes_nonempty |].
    rewrite str_length_rev. lia. }
  rewrite str_rev_app, rev_concat, Hs, <- str_app_assoc, <- str_concat_app.
  apply trim_left_fuel_unique; try assumption.
  - apply rev_space_runes_unambiguous.
  - apply rev_space_runes_nonempty.
  - apply Forall_app. split; [| exact Hrs].
    apply List.Forall_forall. intros w Hw.
    apply List.in_map_iff in Hw as (w0 & <- & Hw0).
    apply List.in_map. apply List.in_rev in Hw0.
    rewrite List.Forall_forall in Hrp. now apply Hrp.
  - rewrite str_concat_app, str_app_assoc, <- Hs, <- rev_concat, <- str_rev_app.
    rewrite str_length_rev. lia.
Qed.

Lemma hasByte_app_r (b : ascii) (u y : string) :
  hasByte b (u ++ String b y) = true.
Proof.
  induction u as [|c u IH]; cbn [append hasByte].
  - now rewrite Ascii.eqb_refl.
  - rewrite IH. apply orb_true_r.
Qed.

Lemma HasPrefix_split (u p r : string) :
  HasPrefix (u ++ p) r = true ->
  HasPrefix u r = true \/ exists y, r = u ++ y /\ HasPrefix p y = true.
Proof.
  revert r; induction u as [|c u IH]; intros r Hp.
  - right. exists r. split; [reflexivity | exact Hp].
  - destruct r as [|a r]; [now left |].
    cbn [append HasPrefix] in *.
    apply andb_true_iff in Hp as [Hc Hrest]. rewrite Hc. cbn [andb].
    apply Ascii.eqb_eq in Hc as ->.
    destruct (IH r Hrest) as [Hu|(y & -> & Hy)]; [now left |].
    right. now exists y.
Qed.

(** White space appended to a string that starts with no rune does not
    create a leading rune. *)
Lemma strip_rune_trailing (u post : string) :
  u <> "" -> strip_rune space_runes u = None -> Spaces post ->
  strip_rune space_runes (u ++ post) = None.
Proof.
  intros Hu Hnone (ws & Hws & ->).
  assert (Hlead : lead_byte_only_leads space_runes = true)
    by (vm_compute; reflexivity).
  assert (Hgen : forall l, incl l space_runes ->
                           strip_rune l u = None ->
                           strip_rune l (u ++ concat ws) = None).
  { induction l as [|r l IH]; intros Hincl Hl; [reflexivity |].
    cbn [strip_rune] in *.
    destruct (HasPrefix u r) eqn:Hur; [discriminate |].
    destruct (HasPrefix (u ++ concat ws) r) eqn:Hp.
    - exfalso. apply HasPrefix_split in Hp as [Hp|(y & -> & Hy)];
        [congruence |].
      destruct y as [|b y].
      { rewrite str_app_empty_r in Hur.
        assert (HasPrefix u u = true) as E
          by (rewrite <- (str_app_empty_r u) at 1; apply HasPrefix_app).
        congruence. }
      (* the rune [u ++ b y] continues into the white space, whose first
         rune then starts with the byte [b] *)
      destruct Hws as [|w ws Hw Hws]; [discriminate Hy |].
      cbn [concat] in Hy.
      assert (Hwne : w <> "").
      { pose proof space_runes_nonempty as Hne.
        rewrite List.Forall_forall in Hne. now apply Hne. }
      destruct w as [|b' w]; [contradiction |].
      cbn [append HasPrefix] in Hy.
      apply andb_true_iff in Hy as [Hb _]. apply Ascii.eqb_eq in Hb as ->.
      destruct u as [|c u]; [contradiction |].
      unfold lead_byte_only_leads in Hlead.
      rewrite forallb_forall in Hlead.
      specialize (Hlead (String c u ++ String b y) (Hincl _ (or_introl eq_refl))).
      rewrite forallb_forall in Hlead.
      specialize (Hlead (String b w) Hw).
      cbn [append] in Hlead.
      rewrite hasByte_app_r in Hlead. discriminate Hlead.
    - apply IH; [| exact Hl]. intros x Hx. apply Hincl. now right. }
  apply Hgen; [apply incl_refl | exact Hnone].
Qed.

(** White space around a text does not matter to [TrimSpace]. *)
Lemma TrimSpace_padding (pre s post : string) :
  Spaces pre -> Spaces post ->
  TrimSpace (pre ++ s ++ post) = TrimSpace s.
Proof.
  intros Hpre Hpost. unfold TrimSpace.
  rewrite TrimLeft_leading by exact Hpre.
  destruct (trim_left_fuel_prefix (String.length s) space_runes s)
    as (rs & Hrs & Hs).
  fold (TrimLeft s) in Hs.
  assert (Hdone : strip_rune space_runes (TrimLeft s) = None).
  { unfold TrimLeft.
    apply trim_left_fuel_done; [apply space_runes_nonempty | lia]. }
  destruct (TrimLeft s) as [|c u] eqn:Hu.
  - rewrite str_app_empty_r in Hs.
    rewrite TrimLeft_Spaces; [reflexivity |].
    apply Spaces_app; [| exact Hpost]. now exists rs.
  - assert (E : TrimLeft (s ++ post) = String c u ++ post).
    { unfold TrimLeft. rewrite Hs at 1 2. rewrite str_app_assoc.
      apply trim_left_fuel_unique.
      - apply space_runes_unambiguous.
      - apply space_runes_nonempty.
      - exact Hrs.
      - apply strip_rune_trailing; [discriminate | exact Hdone | exact Hpost].
      - lia. }
    rewrite E. now apply TrimRight_trailing.
Qed.

End TrimMore.

Section ParserMore.
Context `{!Json}.

(** X23.  White space around the listing does not matter to the parser,
    and a listing that is nothing but white space (as when there are no
    containers) holds no record. *)
Theorem loadContainers_ignores_padding (pre output post : string) :
  Str.Spaces pre -> Str.Spaces post ->
  loadContainers (Output (pre ++ output ++ post))
  = loadContainers (Output output) /\
  loadContainers (Output (pre ++ post)) = containersLoaded [].
Proof.
  intros Hpre Hpost. split.
  - unfold loadContainers. now rewrite TrimSpace_padding.
  - unfold loadContainers.
    replace (pre ++ post) with (pre ++ "" ++ post) by reflexivity.
    now rewrite TrimSpace_padding.
Qed.

End ParserMore.

(** ** The further properties at concrete inputs *)

Section MoreInstances.
#[local] Existing Instances
  Demo.strings Demo.lipgloss Demo.json Demo.table_widget Demo.text_input
  Demo2.time Demo2.padding Demo2.table_view Demo2.input_view
  Demo2.table_laws Demo2.input_laws.

Lemma demo_after_reachable (m : Demo.Model) (msg : Msg) :
  Reachable m -> Reachable (Demo2.after m msg).
Proof.
  intros Hm. unfold Demo2.after.
  destruct (Update m msg) as [[m' cmd]|p] eqn:E; [| exact Hm].
  eapply Reachable_step; [exact Hm | exact E].
Qed.

Lemma demo_with_records_reachable (cs : list Container) :
  Reachable (Demo.with_records cs).
Proof. apply (demo_after_reachable Demo.initial), Reachable_init. Qed.

Lemma demo_editing_reachable : Reachable Demo2.editing.
Proof. apply demo_after_reachable, demo_with_records_reachable. Qed.

Lemma containerToRow_fits_witness :
  exists id name image ports,
    containerToRow (table Demo.initial) Demo.db
    = Done [id; name; image; formatStatus (State Demo.db); ports] /\
    Str.len id <= widthAt (Columns (table Demo.initial)) 0 14 /\
    Str.len name <= widthAt (Columns (table Demo.initial)) 1 25 /\
    Str.len image <= widthAt (Columns (table Demo.initial)) 2 30 /\
    Str.len ports <= widthAt (Columns (table Demo.initial)) 4 25.
Proof.
  apply (containerToRow_fits (table Demo.initial) Demo.db).
  apply demo_initial_roomy.
Defined.

Lemma filterContainers_case_insensitive_witness :
  filterContainers [Demo.web; Demo.db] "NGINX"
  = filterContainers [Demo.web; Demo.db] "nginx".
Proof.
  apply (filterContainers_case_insensitive [Demo.web; Demo.db] "NGINX" "nginx").
  - discriminate.
  - discriminate.
  - reflexivity.
Defined.

Lemma getSelectedContainer_spec_witness :
  getSelectedContainer Demo.initial = Done None /\
  exists c,
    filterContainers (containers (Demo.with_records [Demo.web; Demo.cache]))
                     (Value (filter (Demo.with_records [Demo.web; Demo.cache])))
      !! Z.to_nat (Cursor (table (Demo.with_records [Demo.web; Demo.cache])))
    = Some c /\
    getSelectedContainer (Demo.with_records [Demo.web; Demo.cache])
    = Done (Some c) /\
    In c (containers (Demo.with_records [Demo.web; Demo.cache])).
Proof.
  split.
  - apply (proj1 (getSelectedContainer_spec Demo.initial)).
    left. reflexivity.
  - apply (proj2 (proj2 (getSelectedContainer_spec
                           (Demo.with_records [Demo.web; Demo.cache])))).
    vm_compute. split; [discriminate | reflexivity].
Defined.

Lemma rows_follow_records_witness :
  Rows (table Demo2.editing)
  = List.map (rowOf (Columns (table Demo2.editing)))
             (filterContainers (containers Demo2.editing)
                               (Value (filter Demo2.editing))) /\
  (length (Rows (table Demo2.editing)) <= length (containers Demo2.editing))%nat /\
  Forall (fun row : Row => length row = 5%nat) (Rows (table Demo2.editing)).
Proof.
  apply (rows_follow_records Demo2.editing).
  apply demo_editing_reachable.
Defined.

Lemma selected_record_is_displayed_witness :
  0 <= Cursor (table (Demo.with_records [Demo.web; Demo.cache])) /\
  Rows (table (Demo.with_records [Demo.web; Demo.cache]))
    !! Z.to_nat (Cursor (table (Demo.with_records [Demo.web; Demo.cache])))
  = Some (rowOf (Columns (table (Demo.with_records [Demo.web; Demo.cache])))
                Demo.web).
Proof.
  apply (selected_record_is_displayed
           (Demo.with_records [Demo.web; Demo.cache]) Demo.web).
  - apply demo_with_records_reachable.
  - vm_compute. reflexivity.
Defined.

Lemma Reachable_layout_witness :
  80 <= width (Demo2.after Demo.initial (WindowSizeMsg 60 20)) /\
  fiveColumns (Columns (table (Demo2.after Demo.initial (WindowSizeMsg 60 20)))).
Proof.
  apply (Reachable_layout (Demo2.after Demo.initial (WindowSizeMsg 60 20))).
  apply demo_after_reachable, Reachable_init.
Defined.

Lemma Update_key_x_witness :
  Update (Demo.with_records [Demo.cache]) (KeyMsg "x")
  = Done (set_statusMsg "Container is not running"
            (Demo.with_records [Demo.cache]), CmdNil) /\
  Update (Demo.with_records [Demo.web]) (KeyMsg "x")
  = Done (set_loading true
            (set_statusMsg "Stopping container 3f2a9c41d7e0..."
               (Demo.with_records [Demo.web])),
          Batch [StopContainer "3f2a9c41d7e0"; Tick 2 LoadContainers]).
Proof.
  split.
  - refine (proj1 (Update_key_x (Demo.with_records [Demo.cache]) Demo.cache
                                _ _) _).
    + vm_compute; reflexivity.
    + vm_compute; reflexivity.
    + discriminate.
  - refine (proj2 (Update_key_x (Demo.with_records [Demo.web]) Demo.web
                                _ _) _ _).
    + vm_compute; reflexivity.
    + vm_compute; reflexivity.
    + reflexivity.
    + vm_compute. discriminate.
Defined.

Lemma Update_key_d_witness :
  Update (Demo.with_records [Demo.web]) (KeyMsg "d")
  = Done (set_loading true
            (set_statusMsg "Deleting container 3f2a9c41d7e0..."
               (Demo.with_records [Demo.web])),
          Batch [DeleteContainer "3f2a9c41d7e0"; Tick 2 LoadContainers]).
Proof.
  refine (Update_key_d (Demo.with_records [Demo.web]) Demo.web _ _ _).
  - vm_compute; reflexivity.
  - vm_compute; reflexivity.
  - vm_compute. discriminate.
Defined.

Lemma action_keys_without_selection_witness :
  Update Demo.initial (KeyMsg "d") = Done (Demo.initial, CmdNil).
Proof.
  apply (action_keys_without_selection Demo.initial "d").
  - reflexivity.
  - left. reflexivity.
  - simpl. tauto.
Defined.

Lemma refresh_round_trip_witness :
  exists m1 m2,
    Update (Demo.with_records [Demo.web]) (KeyMsg "r")
    = Done (m1, LoadContainers) /\
    statusMsg m1 = "Refreshing containers..." /\ loading m1 = true /\
    Update m1 (containersLoaded [Demo.cache]) = Done (m2, CmdNil) /\
    containers m2 = [Demo.cache] /\ statusMsg m2 = "" /\ loading m2 = false /\
    Rows (table m2)
    = projection (Columns (table (Demo.with_records [Demo.web])))
                 [Demo.cache]
                 (Value (filter (Demo.with_records [Demo.web]))).
Proof.
  apply (refresh_round_trip (Demo.with_records [Demo.web]) [Demo.cache]).
  - apply demo_with_records_reachable.
  - reflexivity.
Defined.

Lemma action_message_survives_refresh_witness :
  exists m1 m2,
    Update (Demo.with_records [Demo.web])
           (actionResult true "Container 3f2a9c41d7e0 stopped successfully")
    = Done (m1, CmdNil) /\
    statusMsg m1 = "Container 3f2a9c41d7e0 stopped successfully" /\
    loading m1 = false /\
    containers m1 = containers (Demo.with_records [Demo.web]) /\
    Update m1 (containersLoaded [Demo.web]) = Done (m2, CmdNil) /\
    statusMsg m2 = "Container 3f2a9c41d7e0 stopped successfully" /\
    loading m2 = false /\ containers m2 = [Demo.web].
Proof.
  apply (action_message_survives_refresh (Demo.with_records [Demo.web]) true
           "Container 3f2a9c41d7e0 stopped successfully" [Demo.web]).
  - apply demo_with_records_reachable.
  - discriminate.
Defined.

Lemma typing_in_filter_mode_witness :
  exists m',
    Update Demo2.editing (KeyMsg "q") = Done (m', CmdNil) /\
    Value (filter m') = "q" /\ filtering m' = true /\
    containers m' = [Demo.web; Demo.cache] /\ Rows (table m') = [].
Proof.
  eexists. split.
  - refine (typing_in_filter_mode Demo2.editing "q" _ _ _).
    + apply demo_editing_reachable.
    + reflexivity.
    + simpl. intros [H|[H|[H|[]]]]; discriminate H.
  - vm_compute. repeat split; reflexivity.
Defined.

Lemma leaving_filter_mode_witness :
  exists m',
    Update Demo2.editing (KeyMsg "esc") = Done (m', CmdNil) /\
    filtering m' = false /\
    Value (filter m') = Value (filter Demo2.editing) /\
    containers m' = containers Demo2.editing /\
    Rows (table m') = Rows (table Demo2.editing) /\
    statusMsg m' = statusMsg Demo2.editing /\
    loading m' = loading Demo2.editing.
Proof.
  apply (leaving_filter_mode Demo2.editing "esc").
  - apply demo_editing_reachable.
  - reflexivity.
  - simpl. tauto.
Defined.

Lemma loading_only_with_dispatch_witness :
  Batch [DeleteContainer "3f2a9c41d7e0"; Tick 2 LoadContainers] = LoadContainers \/
  exists c, In c (containers (Demo.with_records [Demo.web])) /\
    (Batch [DeleteContainer "3f2a9c41d7e0"; Tick 2 LoadContainers]
     = Batch [StartContainer (ID c); Tick 2 LoadContainers] \/
     Batch [DeleteContainer "3f2a9c41d7e0"; Tick 2 LoadContainers]
     = Batch [StopContainer (ID c); Tick 2 LoadContainers] \/
     Batch [DeleteContainer "3f2a9c41d7e0"; Tick 2 LoadContainers]
     = Batch [DeleteContainer (ID c); Tick 2 LoadContainers]).
Proof.
  refine (loading_only_with_dispatch
            (Demo.with_records [Demo.web])
            (set_loading true
               (set_statusMsg "Deleting container 3f2a9c41d7e0..."
                  (Demo.with_records [Demo.web])))
            (KeyMsg "d") _ _ _ _).
  - vm_compute. reflexivity.
  - reflexivity.
  - reflexivity.
Defined.

Lemma records_change_only_on_listing_witness :
  containers (Demo2.after Demo.initial (containersLoaded [Demo.web]))
  = containers Demo.initial \/
  exists cs, containersLoaded [Demo.web] = containersLoaded cs /\
             containers (Demo2.after Demo.initial (containersLoaded [Demo.web]))
             = cs.
Proof.
  refine (records_change_only_on_listing Demo.initial
            (Demo2.after Demo.initial (containersLoaded [Demo.web]))
            (containersLoaded [Demo.web]) CmdNil _).
  vm_compute. reflexivity.
Defined.

Lemma Update_panics_only_on_action_keys_witness :
  exists m' cmd,
    Update (Demo.with_records [Demo.db]) (KeyMsg "r") = Done (m', cmd).
Proof.
  apply (Update_panics_only_on_action_keys
           (Demo.with_records [Demo.db]) (KeyMsg "r")).
  - apply demo_with_records_reachable.
  - intros key [= <-] _ [H|[H|[H|[]]]]; discriminate H.
  - intros w h Hmsg. discriminate Hmsg.
Defined.

Lemma resize_total_witness :
  exists m',
    Update Demo.initial (WindowSizeMsg 60 20) = Done (m', CmdNil) /\
    width m' = Z.max 80 60 /\ height m' = 20 /\
    Columns (table m') = tableColumns (Z.max 80 60) /\
    rowsInSync m' /\
    containers m' = containers Demo.initial /\
    filter m' = filter Demo.initial /\
    filtering m' = filtering Demo.initial /\ err m' = err Demo.initial /\
    statusMsg m' = statusMsg Demo.initial /\
    loading m' = loading Demo.initial.
Proof.
  apply (resize_total Demo.initial 60 20); unfold maxWindow; lia.
Defined.


Lemma action_outcome_on_screen_witness :
  startContainer "c0ffee1234567890" None
  = Done (actionResult true "Container c0ffee123456 started successfully") /\
  statusBlock ("Failed to " ++ "stop" ++ " container: " ++ "exit status 1")
  = Render errorStyle "✗ Failed to stop container: exit status 1" ++ "

".
Proof.
  pose proof (action_outcome_on_screen "c0ffee1234567890" "exit status 1")
    as [Hgood (_ & _ & _ & Hbad)].
  split.
  - apply Hgood. vm_compute. discriminate.
  - rewrite (Hbad "stop"); [reflexivity | simpl; tauto].
Defined.

Lemma formatTime_edges_witness :
  formatTime "yesterday" = Panic SliceBounds /\
  formatTime "2024-01-02T03:04:05Z" = Done "2024-01-02" /\
  formatTime "2024-01-02 03:04:05 +0000 UTC" = Done "1h".
Proof.
  pose proof (formatTime_edges "2024-01-02T03:04:05Z") as (_ & _ & Hlong & _).
  pose proof (formatTime_edges "2024-01-02 03:04:05 +0000 UTC")
    as (_ & _ & _ & Hparsed).
  split; [reflexivity |]. split.
  - apply Hlong; [discriminate | reflexivity | vm_compute; discriminate].
  - rewrite (Hparsed (90 * 60 * 10 ^ 9)); [reflexivity | discriminate | reflexivity].
Defined.

Lemma newline_is_space : Str.Spaces (String Str.newline "").
Proof.
  exists [String Str.newline ""]. split; [| reflexivity].
  apply List.Forall_cons; [| apply List.Forall_nil].
  vm_compute. right. left. reflexivity.
Qed.

Lemma loadContainers_ignores_padding_witness :
  loadContainers (Output (String Str.newline "" ++ "{c0ffee1234567890}"
                          ++ String Str.newline ""))
  = loadContainers (Output "{c0ffee1234567890}") /\
  loadContainers (Output (String Str.newline "" ++ String Str.newline ""))
  = containersLoaded [].
Proof.
  apply (loadContainers_ignores_padding (String Str.newline "")
           "{c0ffee1234567890}" (String Str.newline ""));
    apply newline_is_space.
Defined.

End MoreInstances.
